(** * pdf_table_extractor: row expansion, per-cell translation, sheet naming
      and workbook formatting of [pdf_table_extractor/app.py].

    The helpers of [app.py] are embedded as Rocq functions: strings are
    [string] (characters are the code points 0..255), a pandas DataFrame is a
    record of column labels and rows of cells, the language-identification
    and translation services are functions over an explicit world state whose
    calls are logged, and an openpyxl workbook is a list of worksheets with
    their cells and column dimensions. *)

From Stdlib Require Import ZArith Ascii String List.
From stdpp Require Import base option list strings pretty gmap sorting.

Local Open Scope string_scope.
Local Open Scope list_scope.

(** ** Python string primitives used by [app.py] *)

Module Py.

(** [str.isspace] on the code points below 256. *)
Definition isspace (c : ascii) : bool :=
  let n := nat_of_ascii c in
  (((9 <=? n) && (n <=? 13)) || ((28 <=? n) && (n <=? 32))
   || (n =? 133) || (n =? 160))%nat.

Fixpoint lstrip (s : string) : string :=
  match s with
  | EmptyString => EmptyString
  | String c rest => if isspace c then lstrip rest else s
  end.

(** [rstrip] keeps a character when it is not a space or when something
    other than spaces follows it. *)
Fixpoint rstrip (s : string) : string :=
  match s with
  | EmptyString => EmptyString
  | String c rest =>
      match rstrip rest with
      | EmptyString => if isspace c then EmptyString else String c EmptyString
      | kept => String c kept
      end
  end.

(** [s.strip()] *)
Definition strip (s : string) : string := rstrip (lstrip s).

(** [str(x)] on a value that is already a [str]. *)
Definition str (s : string) : string := s.

(** Truth value of a string: [not s] holds exactly for the empty string. *)
Definition truthy (s : string) : bool :=
  match s with EmptyString => false | String _ _ => true end.

Definition newline : ascii := ascii_of_nat 10.

(** [sep in s] for a one-character separator. *)
Fixpoint contains (sep : ascii) (s : string) : bool :=
  match s with
  | EmptyString => false
  | String c rest => if Ascii.eqb c sep then true else contains sep rest
  end.

(** [s.split(sep)] for a one-character separator: always at least one
    segment, empty segments are kept. *)
Fixpoint split (sep : ascii) (s : string) : list string :=
  match s with
  | EmptyString => [EmptyString]
  | String c rest =>
      if Ascii.eqb c sep then EmptyString :: split sep rest
      else match split sep rest with
           | seg :: segs => String c seg :: segs
           | [] => [String c EmptyString]
           end
  end.

(** [sep.join(segs)] *)
Fixpoint join (sep : ascii) (segs : list string) : string :=
  match segs with
  | [] => EmptyString
  | [seg] => seg
  | seg :: rest => seg +:+ String sep (join sep rest)
  end.

(** [any(flags)] *)
Definition any (flags : list bool) : bool := existsb id flags.

(** [max(ns)] over a non-empty sequence of lengths (on the empty sequence
    Python raises; [split_merged_rows] reaches it only behind [any], which
    is false on an empty row). *)
Definition max (ns : list nat) : nat := foldr Nat.max 0 ns.

(** [s[:n]] *)
Fixpoint slice_to (n : nat) (s : string) : string :=
  match n, s with
  | S n', String c rest => String c (slice_to n' rest)
  | _, _ => EmptyString
  end.

(** [str(z)] / [format(z)] for an [int]. *)
Definition str_int (z : Z) : string := pretty z.

(** Column labels: camelot numbers the columns, [app.py] replaces the
    labels by strings. *)
Inductive label : Type :=
| LInt (z : Z)
| LStr (s : string).

Definition str_label (l : label) : string :=
  match l with
  | LInt z => str_int z
  | LStr s => s
  end.

(** Exceptions carry their class name and message. *)
Record exn : Type := Exn { exn_class : string; exn_msg : string }.

Inductive outcome (A : Type) : Type :=
| Returned (a : A)
| Raised (e : exn).
Arguments Returned {A} a.
Arguments Raised {A} e.

End Py.

(** ** pandas DataFrame *)

Module Pandas.

Record DataFrame : Type := mkDataFrame {
  columns : list Py.label;
  values : list (list string)
}.

(** Every row has one cell per column label. *)
Definition wf (df : DataFrame) : Prop :=
  Forall (fun row => length row = length (columns df)) (values df).

(** [df.empty]: some axis has length zero. *)
Definition empty (df : DataFrame) : bool :=
  match values df, columns df with
  | [], _ | _, [] => true
  | _, _ => false
  end.

(** [df.iterrows()], rows in order (the index label is not used). *)
Definition iterrows (df : DataFrame) : list (list string) := values df.

(** [df.astype(str)] *)
Definition astype_str (df : DataFrame) : DataFrame :=
  mkDataFrame (columns df) (map (map Py.str) (values df)).

(** [df.columns = labels] *)
Definition set_columns (labels : list Py.label) (df : DataFrame) : DataFrame :=
  mkDataFrame labels (values df).

End Pandas.

Import Pandas.

(** ** RowExpander: [split_merged_rows] (app.py, lines 35-46) *)

(** [[str(cell).split('\n') for cell in row]] *)
Definition row_parts (row : list string) : list (list string) :=
  map (fun cell => Py.split Py.newline (Py.str cell)) row.

(** [[p[i] if i < len(p) else '' for p in parts]] *)
Definition new_row (parts : list (list string)) (i : nat) : list string :=
  map (fun p => if bool_decide (i < length p) then default "" (p !! i) else "") parts.

(** One iteration of the loop over [df.iterrows()]: the rows appended to
    [new_rows] for [row]. *)
Definition expand_row (new_rows : list (list string)) (row : list string)
  : list (list string) :=
  if Py.any (map (fun cell => Py.contains Py.newline (Py.str cell)) row) then
    let parts := row_parts row in
    let max_len := Py.max (map (fun p => length p) parts) in
    foldl (fun acc i => acc ++ [new_row parts i]) new_rows (seq 0 max_len)
  else
    new_rows ++ [row].

Definition split_merged_rows (df : DataFrame) : DataFrame :=
  let new_rows := foldl expand_row [] (iterrows df) in
  mkDataFrame (columns df) new_rows.

(** The sub-rows one input row contributes. *)
Definition sub_rows (row : list string) : list (list string) := expand_row [] row.

(** ** External services and their effects *)

Module Effects.
Import Py.

(** The two external collaborators of [translate_text]: [langdetect.detect]
    and [GoogleTranslator(source, target).translate].  Both may return a
    string or raise, and both may depend on and change the outside world. *)
Record Services : Type := mkServices {
  World : Type;
  detect : string -> World -> outcome string * World;
  translate : string -> string -> string -> World -> outcome string * World
}.

(** A call made to a service, with its arguments. *)
Inductive call : Type :=
| CallDetect (text : string)
| CallTranslate (source target text : string).

Definition is_translate (c : call) : bool :=
  match c with CallTranslate _ _ _ => true | CallDetect _ => false end.

Definition is_detect (c : call) : bool :=
  match c with CallDetect _ => true | CallTranslate _ _ _ => false end.

Section Monad.
Context {svc : Services}.

(** The world together with the log of calls made so far. *)
Definition state : Type := World svc * list call.

(** Computations that return or raise, and thread the state. *)
Definition M (A : Type) : Type := state -> outcome A * state.

Definition ret {A} (a : A) : M A := fun st => (Returned a, st).

Definition bind {A B} (m : M A) (k : A -> M B) : M B :=
  fun st =>
    match m st with
    | (Returned a, st') => k a st'
    | (Raised e, st') => (Raised e, st')
    end.

(** [try: body / except: handler] with a bare [except]. *)
Definition try_except {A} (body : M A) (handler : M A) : M A :=
  fun st =>
    match body st with
    | (Returned a, st') => (Returned a, st')
    | (Raised _, st') => handler st'
    end.

Definition call_detect (text : string) : M string :=
  fun '(w, log) =>
    let '(r, w') := detect svc text w in
    (r, (w', log ++ [CallDetect text])).

Definition call_translate (source target text : string) : M string :=
  fun '(w, log) =>
    let '(r, w') := translate svc source target text w in
    (r, (w', log ++ [CallTranslate source target text])).

(** Monadic map over a list, left to right. *)
Fixpoint mapM {A B} (f : A -> M B) (l : list A) : M (list B) :=
  match l with
  | [] => ret []
  | a :: rest =>
      bind (f a) (fun b => bind (mapM f rest) (fun bs => ret (b :: bs)))
  end.

(** Monadic left fold: a [for] loop over [l] updating [acc]. *)
Fixpoint foldM {A B} (f : A -> B -> M A) (acc : A) (l : list B) : M A :=
  match l with
  | [] => ret acc
  | b :: rest => bind (f acc b) (fun acc' => foldM f acc' rest)
  end.
End Monad.

Arguments M svc A : clear implicits.
Arguments state svc : clear implicits.

(** The calls a computation adds to the log. *)
Definition log_of {svc A} (r : outcome A * state svc) : list call := snd (snd r).
Definition result_of {svc A} (r : outcome A * state svc) : outcome A := fst r.
End Effects.

Import Effects.

Notation "x <- m ;; k" := (bind m (fun x => k))
  (at level 100, m at next level, right associativity, only parsing).

(** ** CellTranslator: [translate_text] and [translate_df] (app.py, lines 21-33) *)

Section Translator.
Context {svc : Services}.

(** Line 23 rebinds [text] to its stripped form before anything that can
    raise is reached ([str] and [strip] do not raise on a string), so every
    later [return text], in the body and in the handler, sees the stripped
    text.  The [if] without [else] of line 26 falls through to the
    [return text] of line 30. *)
Definition translate_text (text target_lang : string) : M svc string :=
  let text := Py.strip (Py.str text) in
  try_except
    (if negb (Py.truthy text) then ret text
     else
       lang <- call_detect text ;;
       if negb (String.eqb lang target_lang)
       then call_translate "auto" target_lang text
       else ret text)
    (ret text).

(** [[row[j] for row in rows]] for the column positions of the frame. *)
Definition column_values (rows : list (list string)) (j : nat) : list string :=
  omap (fun row => row !! j) rows.

Definition of_columns (nrows : nat) (cols : list (list string)) : list (list string) :=
  map (fun i => omap (fun col => col !! i) cols) (seq 0 nrows).

(** [df.applymap(f)]: pandas applies [f] column by column, and within a
    column from the first row to the last. *)
Definition applymap (f : string -> M svc string) (df : DataFrame) : M svc DataFrame :=
  let cols := map (column_values (values df)) (seq 0 (length (columns df))) in
  cols' <- mapM (mapM f) cols ;;
  ret (mkDataFrame (columns df) (of_columns (length (values df)) cols')).

Definition translate_df (df : DataFrame) (target_lang : string) : M svc DataFrame :=
  applymap (fun x => translate_text x target_lang) df.
End Translator.

(** ** TableSerializer: the processing loop (app.py, lines 48-49 and 116-134) *)

(** A table as yielded by camelot: its page number and its frame. *)
Record Table : Type := mkTable { page : Z; df : DataFrame }.

(** [pd.ExcelWriter]: the sheets written so far, in order, each with the
    name passed to [to_excel]. *)
Definition ExcelWriter : Type := list (string * DataFrame).

Definition to_excel (writer : ExcelWriter) (name : string) (d : DataFrame) : ExcelWriter :=
  writer ++ [(name, d)].

Definition format_excel (writer : ExcelWriter) (sheet_name : string) (d : DataFrame)
  : ExcelWriter :=
  to_excel writer (Py.slice_to 31 sheet_name) d.

(** [f"Page_{table.page}_Table_{i+1}"] *)
Definition sheet_name (table : Table) (i : nat) : string :=
  "Page_" +:+ Py.str_int (page table) +:+ "_Table_" +:+ Py.str_int (Z.of_nat i + 1).

(** [enumerate(tables)] *)
Definition enumerate {A} (l : list A) : list (nat * A) := imap (fun i a => (i, a)) l.

Section Pipeline.
Context {svc : Services}.
Variable enable_translation : bool.
Variable confirmed_lang_code : string.

(** Loop state: the writer and [all_dfs]. *)
Definition loop_state : Type := ExcelWriter * list string.

(** One iteration of [for i, table in enumerate(tables)]. *)
Definition process_table (st : loop_state) (it : nat * Table) : M svc loop_state :=
  let '(writer, all_dfs) := st in
  let '(i, table) := it in
  let d := df table in
  if Pandas.empty d then ret (writer, all_dfs)
  else
    let d := set_columns (map (fun col => Py.LStr (Py.strip (Py.str_label col))) (columns d)) d in
    let d := split_merged_rows d in
    let d := astype_str d in
    d <- (if enable_translation then translate_df d confirmed_lang_code else ret d) ;;
    let name := sheet_name table i in
    let writer := format_excel writer name d in
    ret (writer, all_dfs ++ [Py.slice_to 31 name]).

Definition process_enumerated (its : list (nat * Table)) : M svc loop_state :=
  foldM process_table ([], []) its.

Definition process_tables (tables : list Table) : M svc loop_state :=
  process_enumerated (enumerate tables).
End Pipeline.

(** The names of the sheets a writer holds. *)
Definition written_names (writer : ExcelWriter) : list string := map fst writer.

(** ** LayoutFormatter: [post_formatting] (app.py, lines 51-61) *)

Module Openpyxl.

Record Alignment : Type := mkAlignment {
  horizontal : option string;
  vertical : option string;
  wrap_text : option bool
}.

(** [Alignment(wrap_text=True)]: every other attribute at its default. *)
Definition Alignment_wrap : Alignment :=
  {| horizontal := None; vertical := None; wrap_text := Some true |}.

Record Cell : Type := mkCell {
  value : string;
  alignment : Alignment;
  column_letter : string
}.

Record ColumnDimension : Type := mkColumnDimension {
  width : Z;
  hidden : bool
}.

(** The dimension [column_dimensions] creates for a letter it does not
    hold yet. *)
Definition default_dimension : ColumnDimension := {| width := 13; hidden := false |}.

Record Worksheet : Type := mkWorksheet {
  title : string;
  rows : list (list Cell);
  column_dimensions : gmap string ColumnDimension
}.

Definition Workbook : Type := list Worksheet.

(** [wb[name]]: position and sheet of the first worksheet with that title. *)
Fixpoint getitem (wb : Workbook) (name : string) : option (nat * Worksheet) :=
  match wb with
  | [] => None
  | ws :: rest =>
      if String.eqb (title ws) name then Some (0, ws)
      else prod_map S id <$> getitem rest name
  end.

(** [ws.iter_rows()] *)
Definition iter_rows (ws : Worksheet) : list (list Cell) := rows ws.

(** [ws.columns]: one tuple per column of the sheet, given as its first
    cell [col[0]] and the cells below it. *)
Definition ws_columns (ws : Worksheet) : list (Cell * list Cell) :=
  match rows ws with
  | [] => []
  | top :: below =>
      imap (fun j c => (c, omap (fun row => row !! j) below)) top
  end.

End Openpyxl.

Import Openpyxl.

(** [cell.alignment = Alignment(wrap_text=True)] *)
Definition set_alignment (a : Alignment) (c : Cell) : Cell :=
  {| value := value c; alignment := a; column_letter := column_letter c |}.

(** [ws.column_dimensions[col_letter].width = w] *)
Definition set_width (col_letter : string) (w : Z)
    (dims : gmap string ColumnDimension) : gmap string ColumnDimension :=
  let dim := default default_dimension (dims !! col_letter) in
  <[col_letter := {| width := w; hidden := hidden dim |}]> dims.

(** The body of [for sheet in sheet_names] once [ws] is found: first every
    cell of every row, then every column. *)
Definition format_sheet (ws : Worksheet) : Worksheet :=
  let ws1 :=
    {| title := title ws;
       rows := map (map (set_alignment Alignment_wrap)) (iter_rows ws);
       column_dimensions := column_dimensions ws |} in
  {| title := title ws1;
     rows := rows ws1;
     column_dimensions :=
       foldl (fun dims col => set_width (column_letter (fst col)) 35 dims)
             (column_dimensions ws1) (ws_columns ws1) |}.

(** The loop of [post_formatting] over the loaded workbook; worksheets are
    objects of the workbook, so formatting one updates it in place. *)
Fixpoint format_sheets (wb : Workbook) (sheet_names : list string) : Py.outcome Workbook :=
  match sheet_names with
  | [] => Py.Returned wb
  | sheet :: rest =>
      match getitem wb sheet with
      | None => Py.Raised (Py.Exn "KeyError" sheet)
      | Some (k, ws) => format_sheets (<[k := format_sheet ws]> wb) rest
      end
  end.

(** [post_formatting(excel_io, sheet_names)]: [excel_io] holds a saved
    workbook; it is loaded, formatted and saved back.  When a sheet is
    missing the exception leaves [excel_io] as it was. *)
Definition post_formatting (excel_io : Workbook) (sheet_names : list string)
  : Py.outcome unit * Workbook :=
  match format_sheets excel_io sheet_names with
  | Py.Returned wb => (Py.Returned tt, wb)
  | Py.Raised e => (Py.Raised e, excel_io)
  end.

(** ** Language map and session flow (app.py, lines 10-18 and 63-154) *)

Module App.
Import Py.

(** A [dict] with string keys and values, as its items in insertion order. *)
Definition dict : Type := list (string * string).

(** [d[k]], [None] standing for [KeyError]. *)
Fixpoint dict_get (d : dict) (k : string) : option string :=
  match d with
  | [] => None
  | (k', v) :: rest => if String.eqb k' k then Some v else dict_get rest k
  end.

(** [d[k] = v]: an existing key keeps its place and takes the new value, a
    new key goes last. *)
Fixpoint dict_set (d : dict) (k v : string) : dict :=
  match d with
  | [] => [(k, v)]
  | (k', v') :: rest =>
      if String.eqb k' k then (k', v) :: rest else (k', v') :: dict_set rest k v
  end.

(** A dict display or comprehension: the items are set one after the other. *)
Definition dict_of (items : list (string * string)) : dict :=
  foldl (fun d kv => dict_set d kv.1 kv.2) [] items.

Definition full_language_names : dict :=
  dict_of
    [("en", "English"); ("es", "Spanish"); ("fr", "French"); ("de", "German");
     ("zh-cn", "Chinese (Simplified)"); ("zh-tw", "Chinese (Traditional)");
     ("ja", "Japanese"); ("ko", "Korean"); ("ru", "Russian"); ("ar", "Arabic");
     ("pt", "Portuguese"); ("it", "Italian"); ("hi", "Hindi"); ("tr", "Turkish");
     ("pl", "Polish"); ("uk", "Ukrainian"); ("vi", "Vietnamese");
     ("id", "Indonesian"); ("nl", "Dutch"); ("sv", "Swedish"); ("no", "Norwegian");
     ("fi", "Finnish")].

(** [sorted(names)]: strings compare by code points; the sort is stable. *)
Fixpoint insert_sorted (x : string) (l : list string) : list string :=
  match l with
  | [] => [x]
  | y :: rest => if String.leb y x then y :: insert_sorted x rest else x :: l
  end.

Definition sorted (l : list string) : list string :=
  foldl (fun acc x => insert_sorted x acc) [] l.

(** [l.index(x)], [None] standing for [ValueError]. *)
Fixpoint index (x : string) (l : list string) : option nat :=
  match l with
  | [] => None
  | y :: rest => if String.eqb y x then Some 0 else S <$> index x rest
  end.

Definition sorted_lang_names : list string := sorted (map snd full_language_names).

(** [{v: k for k, v in full_language_names.items()}] *)
Definition lang_name_to_code : dict :=
  dict_of (map (fun kv : string * string => (kv.2, kv.1)) full_language_names).

(** [st.session_state] once the defaults of lines 68-78 are in place. *)
Record Session : Type := mkSession {
  last_filename : option string;
  confirmed : bool;
  processing_complete : bool;
  confirmed_lang_code : string;
  confirmed_lang_name : string;
  run_without_translation : bool
}.

(** The session of a first run: every key takes its default. *)
Definition initial_session : Session :=
  {| last_filename := None; confirmed := false; processing_complete := false;
     confirmed_lang_code := "en"; confirmed_lang_name := "English";
     run_without_translation := false |}.

(** What the widgets return in one run of the script; a widget the run does
    not reach is not read. *)
Record Widgets : Type := mkWidgets {
  uploaded_file : option string;
  translate_checkbox : bool;
  selected_lang : string;
  confirm_button : bool;
  extract_button : bool
}.

(** What a run shows. *)
Inductive event : Type :=
| LanguageSet (name : string)
| Processed (file : string) (enable_translation : bool) (lang : string)
| Warned.

(** Lines 82-86: a file under a new name drops the flags. *)
Definition note_upload (w : Widgets) (s : Session) : Session :=
  match uploaded_file w with
  | Some name =>
      if bool_decide (last_filename s = Some name) then s
      else {| last_filename := Some name; confirmed := false;
              processing_complete := false;
              confirmed_lang_code := confirmed_lang_code s;
              confirmed_lang_name := confirmed_lang_name s;
              run_without_translation := false |}
  | None => s
  end.

Section Run.
(** Lines 114-144, the processing of a file with the translation flag and
    the confirmed language code: it completes or raises. *)
Variable pipeline : string -> bool -> string -> outcome unit.

(** Lines 110-154. *)
Definition process_or_warn (name : string) (enable_translation : bool)
    (shown : list event) (s : Session) : outcome (list event) * Session :=
  if (enable_translation && confirmed s)
     || (negb enable_translation && run_without_translation s)
  then
    match pipeline name enable_translation (confirmed_lang_code s) with
    | Raised e => (Raised e, s)
    | Returned _ =>
        (Returned (shown ++ [Processed name enable_translation (confirmed_lang_code s)]),
         {| last_filename := last_filename s; confirmed := false;
            processing_complete := true;
            confirmed_lang_code := confirmed_lang_code s;
            confirmed_lang_name := confirmed_lang_name s;
            run_without_translation := false |})
    end
  else if enable_translation && negb (confirmed s)
  then (Returned (shown ++ [Warned]), s)
  else (Returned shown, s).

(** One run of the script, lines 80-154. *)
Definition script_run (w : Widgets) (s : Session) : outcome (list event) * Session :=
  let s := note_upload w s in
  match uploaded_file w with
  | None => (Returned [], s)
  | Some name =>
      if translate_checkbox w then
        match index "English" sorted_lang_names with
        | None => (Raised (Exn "ValueError" "English"), s)
        | Some default_index =>
            if confirm_button w then
              match dict_get lang_name_to_code (selected_lang w) with
              | None => (Raised (Exn "KeyError" (selected_lang w)), s)
              | Some code =>
                  process_or_warn name true [LanguageSet (selected_lang w)]
                    {| last_filename := last_filename s; confirmed := true;
                       processing_complete := false;
                       confirmed_lang_code := code;
                       confirmed_lang_name := selected_lang w;
                       run_without_translation := run_without_translation s |}
              end
            else process_or_warn name true [] s
        end
      else if negb (run_without_translation s) then
        if extract_button w then
          process_or_warn name false []
            {| last_filename := last_filename s; confirmed := confirmed s;
               processing_complete := processing_complete s;
               confirmed_lang_code := confirmed_lang_code s;
               confirmed_lang_name := confirmed_lang_name s;
               run_without_translation := true |}
        else process_or_warn name false [] s
      else process_or_warn name false [] s
  end.
End Run.

(** No flag is pending. *)
Definition idle (s : Session) : Prop :=
  confirmed s = false /\ run_without_translation s = false.

(** The confirmed language is an entry of the map, under both of its names. *)
Definition language_known (s : Session) : Prop :=
  dict_get lang_name_to_code (confirmed_lang_name s) = Some (confirmed_lang_code s)
  /\ dict_get full_language_names (confirmed_lang_code s) = Some (confirmed_lang_name s).

End App.

(** ** Vocabulary of the statements *)

(** Leading and trailing whitespace of a value. *)
Definition starts_with_space (s : string) : bool :=
  match s with
  | EmptyString => false
  | String c _ => Py.isspace c
  end.

Fixpoint ends_with_space (s : string) : bool :=
  match s with
  | EmptyString => false
  | String c EmptyString => Py.isspace c
  | String _ rest => ends_with_space rest
  end.

(** The number of segments of the longest cell of a row. *)
Definition max_segments (row : list string) : nat :=
  Py.max (map (fun cell => length (Py.split Py.newline cell)) row).

(** The row of the spec's example, ["X", "A\nB"]. *)
Definition example_row : list string := ["X"; "A" +:+ String Py.newline "B"].

(** The name under which the table at position [i] is written. *)
Definition written_name (it : nat * Table) : string :=
  Py.slice_to 31 (sheet_name it.2 it.1).

Definition nonempty_table (it : nat * Table) : bool := negb (Pandas.empty (df it.2)).

(** [ws.column_dimensions[l].width = w] for each letter of a list in turn. *)
Definition set_widths (letters : list string) (w : Z)
    (dims : gmap string ColumnDimension) : gmap string ColumnDimension :=
  foldl (fun dims l => set_width l w dims) dims letters.

(** Every cell of every row given the wrap-text alignment. *)
Definition wrap_rows (rs : list (list Cell)) : list (list Cell) :=
  map (map (set_alignment Alignment_wrap)) rs.

(** The letters [format_sheet] reads off the first cell of each column. *)
Definition column_letters (rs : list (list Cell)) : list string :=
  map (fun col : Cell * list Cell => column_letter (fst col))
      (ws_columns {| title := ""; rows := rs; column_dimensions := ∅ |}).

(** A row without any line break. *)
Definition clean_row (row : list string) : Prop :=
  Forall (fun cell => Py.contains Py.newline cell = false) row.

(** The calls added between two states contain no provider call. *)
Definition no_provider_call {svc : Services} (s s' : state svc) : Prop :=
  exists calls, snd s' = snd s ++ calls /\ Forall (fun c => is_translate c = false) calls.

(** The number of identification calls in the log. *)
Definition detect_calls {svc : Services} (s : state svc) : nat := length (filter is_detect (snd s)).

(** What a cell costs in identification calls. *)
Definition needs_detect (cell : string) : nat :=
  if Py.truthy (Py.strip cell) then 1 else 0.

(** Whether position [k] holds the sheet [wb[name]] resolves to for some
    listed name. *)
Definition targeted (wb : Workbook) (names : list string) (k : nat) : bool :=
  existsb (fun name => match getitem wb name with
                       | Some (k', _) => Nat.eqb k' k
                       | None => false
                       end) names.

(** What a sheet holds apart from its formatting. *)
Definition sheet_content (ws : Worksheet) : string * list (list (string * string)) :=
  (title ws, map (map (fun c => (value c, column_letter c))) (rows ws)).

(** The frame written for a table when nothing is translated. *)
Definition expanded_frame (t : Table) : DataFrame :=
  split_merged_rows
    (set_columns (map (fun col => Py.LStr (Py.strip (Py.str_label col))) (columns (df t)))
                 (df t)).

(** The character that separates the parts of a sheet name. *)
Definition underscore : ascii := ascii_of_nat 95.

(** The labels [app.py] gives the frame of a table: each label as a
    stripped string. *)
Definition string_labels (t : Table) : list Py.label :=
  map (fun col => Py.LStr (Py.strip (Py.str_label col))) (columns (df t)).

(** A table the loop writes: its frame has a row and a label. *)
Definition has_cells (t : Table) : Prop :=
  values (df t) <> [] /\ columns (df t) <> [].

(** ** Scenarios: concrete services and tables *)

Module Scenario.
Import Py.

(** Services that answer every call the same way; the world counts the
    calls received. *)
Definition fixed_services (detected translated : outcome string) : Services :=
  {| World := nat;
     detect := fun _ n => (detected, S n);
     translate := fun _ _ _ n => (translated, S n) |}.

Definition detection_error : exn := Exn "LangDetectException" "No features in text.".
Definition provider_error : exn := Exn "RequestError" "Request exception can happen due to an api connection error.".

(** Identification raises. *)
Definition undetectable : Services :=
  fixed_services (Raised detection_error) (Returned "translated").

(** Identification answers French, the provider raises. *)
Definition provider_down : Services :=
  fixed_services (Returned "fr") (Raised provider_error).

(** Identification answers English, the provider works. *)
Definition english : Services :=
  fixed_services (Returned "en") (Returned "translated").

Definition frame (rows : list (list string)) : DataFrame :=
  mkDataFrame [LInt 0; LInt 1] rows.

(** A table without rows, and the 2x2 table of the spec's end-to-end
    example, both on page 1. *)
Definition empty_table : Table := mkTable 1 (frame []).
Definition merged_table : Table :=
  mkTable 1 (frame [["h0"; "h1"]; ["X"; "A" +:+ String newline "B"]]).
End Scenario.

(** ** Samples: further concrete inputs *)

Module Samples.
Import Py Scenario App.

(** Identification answers French, the provider answers ["hello"]. *)
Definition french : Services :=
  fixed_services (Returned "fr") (Returned "hello").

(** A one-row frame with padded, repeated and empty cells. *)
Definition padded_frame : DataFrame := frame [[" a "; "b"]; ["b"; "  "]].

(** The frame written for [merged_table]. *)
Definition merged_expanded : DataFrame :=
  mkDataFrame [LStr "0"; LStr "1"] [["h0"; "h1"]; ["X"; "A"]; [""; "B"]].

Definition plain : Alignment :=
  {| horizontal := None; vertical := None; wrap_text := None |}.

(** A workbook of two sheets; the first has a hidden column B. *)
Definition data_sheet : Worksheet :=
  {| title := "Page_1_Table_1";
     rows := [[mkCell "0" plain "A"; mkCell "1" plain "B"];
              [mkCell "X" plain "A"; mkCell "A" plain "B"]];
     column_dimensions := {["B" := {| width := 8; hidden := true |}]} |}.

Definition notes_sheet : Worksheet :=
  {| title := "Notes";
     rows := [[mkCell "n" plain "A"]];
     column_dimensions := ∅ |}.

Definition workbook : Workbook := [data_sheet; notes_sheet].

(** A frame with two rows and no label. *)
Definition unlabelled_table : Table := mkTable 2 (mkDataFrame [] [[]; []]).

(** A processing that completes. *)
Definition completes : string -> bool -> string -> outcome unit :=
  fun _ _ _ => Returned tt.

(** A file is there, the translation box is ticked, Spanish is selected and
    the confirm button clicked. *)
Definition confirm_spanish : Widgets :=
  {| uploaded_file := Some "report.pdf"; translate_checkbox := true;
     selected_lang := "Spanish"; confirm_button := true; extract_button := false |}.
End Samples.

(** * Facts *)

(** ** Strings *)

Lemma split_not_nil sep s : Py.split sep s <> [].
Proof.
  destruct s as [|c rest]; simpl; [discriminate|].
  destruct (Ascii.eqb c sep); [discriminate|].
  destruct (Py.split sep rest); discriminate.
Qed.

Lemma split_length_pos sep s : 1 <= length (Py.split sep s).
Proof.
  pose proof (split_not_nil sep s) as H.
  destruct (Py.split sep s); [congruence | simpl; lia].
Qed.

(** [sep in s] holds exactly when [s.split(sep)] has more than one segment. *)
Lemma contains_split sep s :
  Py.contains sep s = true <-> 1 < length (Py.split sep s).
Proof.
  induction s as [|c rest IH]; simpl.
  - split; [discriminate | lia].
  - destruct (Ascii.eqb c sep).
    + pose proof (split_length_pos sep rest). simpl. split; [lia | reflexivity].
    + pose proof (split_not_nil sep rest) as Hne.
      destruct (Py.split sep rest) as [|seg segs]; [congruence|].
      simpl in *. exact IH.
Qed.

Lemma contains_false_split sep s :
  Py.contains sep s = false -> Py.split sep s = [s].
Proof.
  induction s as [|c rest IH]; simpl; [reflexivity|].
  destruct (Ascii.eqb c sep); [discriminate|].
  intros H. rewrite (IH H). reflexivity.
Qed.

Lemma join_cons sep seg segs :
  segs <> [] -> Py.join sep (seg :: segs) = seg +:+ String sep (Py.join sep segs).
Proof. destruct segs; [congruence | reflexivity]. Qed.

(** Splitting loses nothing: joining the segments gives the string back. *)
Lemma join_split sep s : Py.join sep (Py.split sep s) = s.
Proof.
  induction s as [|c rest IH]; [reflexivity|].
  pose proof (split_not_nil sep rest) as Hne.
  cbn [Py.split]. destruct (Ascii.eqb c sep) eqn:E.
  - apply Ascii.eqb_eq in E. subst c.
    rewrite join_cons, IH by assumption. reflexivity.
  - destruct (Py.split sep rest) as [|seg segs]; [congruence|].
    destruct segs as [|seg' segs].
    + simpl in *. by rewrite IH.
    + rewrite join_cons in * by discriminate.
      rewrite <- IH. reflexivity.
Qed.

(** No segment contains the separator. *)
Lemma split_segments_clean sep s :
  Forall (fun seg => Py.contains sep seg = false) (Py.split sep s).
Proof.
  induction s as [|c rest IH]; simpl.
  - repeat constructor.
  - destruct (Ascii.eqb c sep) eqn:E.
    + constructor; [reflexivity | exact IH].
    + destruct (Py.split sep rest) as [|seg segs].
      * repeat constructor. simpl. rewrite E. reflexivity.
      * inversion IH; subst. constructor; [|assumption].
        simpl. rewrite E. assumption.
Qed.

Lemma slice_to_length n s : String.length (Py.slice_to n s) <= n.
Proof.
  revert s. induction n as [|n IH]; intros [|c rest]; simpl; try lia.
  specialize (IH rest). lia.
Qed.

Lemma slice_to_short n s : String.length s <= n -> Py.slice_to n s = s.
Proof.
  revert s. induction n as [|n IH]; intros [|c rest]; simpl; try reflexivity; try lia.
  intros H. f_equal. apply IH. lia.
Qed.

Lemma lstrip_length s : String.length (Py.lstrip s) <= String.length s.
Proof.
  induction s as [|c rest IH]; simpl; [lia|].
  destruct (Py.isspace c); simpl; lia.
Qed.

Lemma rstrip_length s : String.length (Py.rstrip s) <= String.length s.
Proof.
  induction s as [|c rest IH]; simpl; [lia|].
  destruct (Py.rstrip rest); [destruct (Py.isspace c)|]; simpl in *; lia.
Qed.

Lemma lstrip_same_length s :
  String.length (Py.lstrip s) = String.length s -> Py.lstrip s = s.
Proof.
  destruct s as [|c rest]; simpl; [reflexivity|].
  destruct (Py.isspace c); [|reflexivity].
  pose proof (lstrip_length rest). lia.
Qed.

Lemma lstrip_fixed s : Py.lstrip s = s <-> starts_with_space s = false.
Proof.
  destruct s as [|c rest]; simpl; [tauto|].
  destruct (Py.isspace c); [|tauto].
  split; [|discriminate]. intros H.
  pose proof (lstrip_length rest) as Hl. rewrite H in Hl. simpl in Hl. lia.
Qed.

Lemma rstrip_fixed s : Py.rstrip s = s <-> ends_with_space s = false.
Proof.
  induction s as [|c rest IH]; [simpl; tauto|].
  destruct rest as [|c' rest'].
  - simpl. destruct (Py.isspace c); split; congruence.
  - change (ends_with_space (String c (String c' rest')))
      with (ends_with_space (String c' rest')).
    rewrite <- IH. clear IH.
    remember (String c' rest') as r eqn:Hr.
    cbn [Py.rstrip].
    destruct (Py.rstrip r) as [|k kept].
    + subst r. split; [destruct (Py.isspace c)|]; discriminate.
    + split; [intros H; by inversion H | intros H; by rewrite H].
Qed.

(** [strip] returns its argument exactly when the argument neither starts
    nor ends with whitespace. *)
Lemma strip_fixed s :
  Py.strip s = s <-> starts_with_space s = false /\ ends_with_space s = false.
Proof.
  unfold Py.strip. split.
  - intros H.
    assert (Py.lstrip s = s) as Hl.
    { apply lstrip_same_length.
      pose proof (rstrip_length (Py.lstrip s)) as H1. rewrite H in H1.
      pose proof (lstrip_length s). lia. }
    split; [by apply lstrip_fixed|]. apply rstrip_fixed. by rewrite Hl in H.
  - intros [Hl Hr]. apply lstrip_fixed in Hl. rewrite Hl. by apply rstrip_fixed.
Qed.

Lemma strip_changes_padded s :
  starts_with_space s = true \/ ends_with_space s = true -> Py.strip s <> s.
Proof.
  intros H Heq. apply strip_fixed in Heq. destruct Heq, H; congruence.
Qed.

(** ** Row expansion *)

Lemma any_exists (flags : list bool) : Py.any flags = true <-> Exists (fun b => b = true) flags.
Proof.
  unfold Py.any. induction flags as [|b flags IH]; simpl.
  - split; [discriminate | intros H; inversion H].
  - rewrite orb_true_iff, IH, Exists_cons. unfold id. tauto.
Qed.

Lemma any_contains_row (row : list string) :
  Py.any (map (fun cell => Py.contains Py.newline (Py.str cell)) row) = true
  <-> Exists (fun cell => 1 < length (Py.split Py.newline cell)) row.
Proof.
  rewrite any_exists, Exists_fmap, !Exists_exists. unfold Py.str.
  split; intros (cell & Hin & H); exists cell; (split; [exact Hin|]);
    simpl in *; by apply contains_split.
Qed.

Lemma foldl_snoc {A B} (f : B -> A) (acc : list A) (l : list B) :
  foldl (fun acc i => acc ++ [f i]) acc l = acc ++ map f l.
Proof.
  revert acc. induction l as [|b l IH]; intros acc; simpl.
  - by rewrite app_nil_r.
  - rewrite IH, <- app_assoc. reflexivity.
Qed.

Lemma expand_row_acc new_rows row : expand_row new_rows row = new_rows ++ sub_rows row.
Proof.
  unfold sub_rows, expand_row.
  destruct (Py.any _); [|reflexivity].
  cbv zeta. rewrite !foldl_snoc. reflexivity.
Qed.

Lemma foldl_expand_row acc rows :
  foldl expand_row acc rows = acc ++ concat (map sub_rows rows).
Proof.
  revert acc. induction rows as [|row rows IH]; intros acc; simpl.
  - by rewrite app_nil_r.
  - rewrite IH, expand_row_acc, <- app_assoc. reflexivity.
Qed.

Lemma split_merged_rows_values d :
  values (split_merged_rows d) = concat (map sub_rows (values d)).
Proof. unfold split_merged_rows, iterrows. simpl. apply foldl_expand_row. Qed.

Lemma sub_rows_multi row :
  Exists (fun cell => 1 < length (Py.split Py.newline cell)) row ->
  sub_rows row = map (new_row (row_parts row)) (seq 0 (max_segments row)).
Proof.
  intros H. apply any_contains_row in H.
  unfold sub_rows, expand_row. rewrite H. cbv zeta.
  rewrite foldl_snoc. simpl. unfold max_segments, row_parts.
  rewrite map_map. reflexivity.
Qed.

Lemma sub_rows_single row :
  Forall (fun cell => Py.contains Py.newline cell = false) row -> sub_rows row = [row].
Proof.
  intros H. unfold sub_rows, expand_row.
  destruct (Py.any _) eqn:E; [|reflexivity].
  apply any_exists in E. rewrite Exists_fmap in E.
  apply Exists_exists in E. destruct E as (cell & Hin & Hc).
  rewrite Forall_forall in H. unfold Py.str in Hc. simpl in Hc.
  specialize (H cell Hin). congruence.
Qed.

Lemma new_row_length parts i : length (new_row parts i) = length parts.
Proof. unfold new_row. apply length_map. Qed.

Lemma new_row_lookup (row : list string) i j cell :
  row !! j = Some cell ->
  new_row (row_parts row) i !! j =
    Some (if bool_decide (i < length (Py.split Py.newline cell))
          then default "" (Py.split Py.newline cell !! i) else "").
Proof.
  intros H. unfold new_row, row_parts.
  rewrite !list_lookup_fmap, H. reflexivity.
Qed.

Lemma sub_rows_length row sub : sub ∈ sub_rows row -> length sub = length row.
Proof.
  unfold sub_rows, expand_row.
  destruct (Py.any _).
  - cbv zeta. rewrite foldl_snoc. simpl.
    intros H. apply list_elem_of_fmap in H. destruct H as (i & -> & _).
    rewrite new_row_length. unfold row_parts. apply length_map.
  - simpl. intros H. apply list_elem_of_singleton in H. by subst.
Qed.

Lemma max_upper (ns : list nat) n : n ∈ ns -> n <= Py.max ns.
Proof.
  unfold Py.max. induction ns as [|m ns IH]; simpl; intros H.
  - by apply not_elem_of_nil in H.
  - apply elem_of_cons in H. destruct H as [->|H]; [lia|].
    specialize (IH H). lia.
Qed.

Lemma max_attained (ns : list nat) : ns <> [] -> Py.max ns ∈ ns.
Proof.
  unfold Py.max. induction ns as [|m ns IH]; [congruence|]. intros _. simpl.
  destruct ns as [|k ns].
  - simpl. rewrite Nat.max_0_r. apply elem_of_cons. by left.
  - destruct (Nat.max_spec m (foldr Nat.max 0 (k :: ns))) as [[_ ->]|[_ ->]].
    + apply elem_of_cons. right. by apply IH.
    + apply elem_of_cons. by left.
Qed.

Lemma max_segments_upper row cell :
  cell ∈ row -> length (Py.split Py.newline cell) <= max_segments row.
Proof.
  intros H. apply max_upper.
  apply list_elem_of_fmap. by exists cell.
Qed.

Lemma max_segments_attained row :
  row <> [] ->
  exists cell, cell ∈ row /\ length (Py.split Py.newline cell) = max_segments row.
Proof.
  intros H.
  assert (map (fun cell => length (Py.split Py.newline cell)) row <> []) as Hne
    by (destruct row; [congruence | discriminate]).
  apply max_attained in Hne. apply list_elem_of_fmap in Hne.
  destruct Hne as (cell & Heq & Hin). exists cell. split; [exact Hin|].
  symmetry. exact Heq.
Qed.

(** C1: [split_merged_rows] handles the rows one by one, in order.  A row
    with a cell of more than one segment gives exactly N sub-rows, N the
    largest segment count among its cells, and sub-row i holds in column j
    segment i of the cell of column j when that cell has one, else the empty
    string; a row without any line break is emitted once, unchanged.  The
    row ["X", "A\nB"] gives the two rows ["X", "A"] and ["", "B"]. *)
Theorem split_merged_rows_expansion (d : DataFrame) :
  values (split_merged_rows d) = concat (map sub_rows (values d))
  /\ (forall row : list string,
        let segments cell := Py.split Py.newline cell in
        (Exists (fun cell => 1 < length (segments cell)) row ->
         exists N,
           (forall cell, cell ∈ row -> length (segments cell) <= N)
           /\ (exists cell, cell ∈ row /\ length (segments cell) = N)
           /\ length (sub_rows row) = N
           /\ forall i j cell, i < N -> row !! j = Some cell ->
                exists sub, sub_rows row !! i = Some sub
                  /\ (forall seg, segments cell !! i = Some seg -> sub !! j = Some seg)
                  /\ (length (segments cell) <= i -> sub !! j = Some ""))
        /\ (Forall (fun cell => Py.contains Py.newline cell = false) row ->
            sub_rows row = [row]))
  /\ (forall cols, values (split_merged_rows (mkDataFrame cols [example_row]))
                   = [["X"; "A"]; [""; "B"]]).
Proof.
  split; [apply split_merged_rows_values|]. split; [|reflexivity].
  intros row segments. split; [|apply sub_rows_single].
  intros Hmulti. exists (max_segments row).
  assert (row <> []) as Hne by (intros ->; inversion Hmulti).
  split; [intros cell; apply max_segments_upper|].
  split; [by apply max_segments_attained|].
  rewrite (sub_rows_multi row Hmulti).
  split; [by rewrite length_map, length_seq|].
  intros i j cell Hi Hj. exists (new_row (row_parts row) i).
  split.
  - rewrite list_lookup_fmap, lookup_seq_lt by exact Hi. reflexivity.
  - rewrite (new_row_lookup row i j cell Hj). subst segments. cbv beta.
    split.
    + intros seg Hseg. pose proof (lookup_lt_Some _ _ _ Hseg) as Hlt.
      rewrite bool_decide_eq_true_2 by exact Hlt. by rewrite Hseg.
    + intros Hge. rewrite bool_decide_eq_false_2 by lia. reflexivity.
Qed.

(** C3: the frame [split_merged_rows] returns keeps the column labels; every
    row it emits comes from one input row and has as many cells as that row;
    in every column it holds a segment of the input cell of the same column
    or the empty string, so no column is dropped or moved; a frame whose
    rows all have one cell per label stays so. *)
Theorem split_merged_rows_columns (d : DataFrame) :
  columns (split_merged_rows d) = columns d
  /\ (forall out, out ∈ values (split_merged_rows d) ->
        exists row, row ∈ values d /\ out ∈ sub_rows row /\ length out = length row
          /\ forall j cell, row !! j = Some cell ->
               exists v, out !! j = Some v
                 /\ (v ∈ Py.split Py.newline cell \/ v = ""))
  /\ (wf d -> wf (split_merged_rows d)).
Proof.
  split; [reflexivity|].
  assert (forall out, out ∈ values (split_merged_rows d) ->
            exists row, row ∈ values d /\ out ∈ sub_rows row) as Horigin.
  { intros out. rewrite split_merged_rows_values.
    intros H. apply list_elem_of_In, in_concat in H.
    destruct H as (subs & Hsubs & Hout).
    apply list_elem_of_In, list_elem_of_fmap in Hsubs.
    destruct Hsubs as (row & -> & Hrow).
    exists row. split; [exact Hrow | by apply list_elem_of_In]. }
  split.
  - intros out Hout. destruct (Horigin out Hout) as (row & Hrow & Hsub).
    exists row. split; [exact Hrow|]. split; [exact Hsub|].
    split; [by apply sub_rows_length|].
    intros j cell Hj. revert Hsub. unfold sub_rows, expand_row.
    destruct (Py.any _) eqn:E.
    + cbv zeta. rewrite foldl_snoc. simpl. intros H.
      apply list_elem_of_fmap in H. destruct H as (i & -> & _).
      rewrite (new_row_lookup row i j cell Hj). eexists. split; [reflexivity|].
      case_bool_decide as Hi; [left | by right].
      apply lookup_lt_is_Some in Hi. destruct Hi as [seg Hseg].
      rewrite Hseg. simpl. apply list_elem_of_lookup. by exists i.
    + simpl. intros H. apply list_elem_of_singleton in H. subst out.
      exists cell. split; [exact Hj|]. left.
      assert (Py.contains Py.newline cell = false) as Hc.
      { destruct (Py.contains Py.newline cell) eqn:Hc; [|reflexivity].
        assert (Py.any (map (fun cell => Py.contains Py.newline (Py.str cell)) row) = true)
          as Hany; [|congruence].
        apply any_exists. rewrite Exists_fmap. apply Exists_exists.
        exists cell. split; [|exact Hc].
        apply list_elem_of_lookup. by exists j. }
      rewrite (contains_false_split _ _ Hc). apply list_elem_of_singleton. reflexivity.
  - unfold wf. rewrite !Forall_forall. intros Hwf out Hout.
    destruct (Horigin out Hout) as (row & Hrow & Hsub).
    rewrite (sub_rows_length row out Hsub). simpl.
    by apply Hwf.
Qed.

(** ** translate_text *)

Section TranslatorFacts.
Context {svc : Services}.
Implicit Types (value target : string) (w : World svc) (log : list call).

Lemma truthy_false s : Py.truthy s = false <-> s = "".
Proof. destruct s; simpl; split; congruence. Qed.

(** The empty-text path: nothing is called and the state is untouched. *)
Lemma translate_text_empty value target (st : state svc) :
  Py.strip value = "" -> translate_text value target st = (Py.Returned "", st).
Proof.
  intros H. unfold translate_text, try_except, Py.str. rewrite H. reflexivity.
Qed.

(** Identification raises: the handler returns the stripped text. *)
Lemma translate_text_detect_raises value target w log e w' :
  Py.strip value <> "" ->
  detect svc (Py.strip value) w = (Py.Raised e, w') ->
  translate_text value target (w, log)
  = (Py.Returned (Py.strip value), (w', log ++ [CallDetect (Py.strip value)])).
Proof.
  intros Hne Hd. unfold translate_text, try_except, bind, call_detect, Py.str.
  destruct (Py.truthy (Py.strip value)) eqn:Ht.
  - simpl. rewrite Hd. reflexivity.
  - apply truthy_false in Ht. contradiction.
Qed.

(** Identification returns the target language: no provider call. *)
Lemma translate_text_detect_target value target w log w' :
  Py.strip value <> "" ->
  detect svc (Py.strip value) w = (Py.Returned target, w') ->
  translate_text value target (w, log)
  = (Py.Returned (Py.strip value), (w', log ++ [CallDetect (Py.strip value)])).
Proof.
  intros Hne Hd. unfold translate_text, try_except, bind, call_detect, Py.str.
  destruct (Py.truthy (Py.strip value)) eqn:Ht.
  - simpl. rewrite Hd, String.eqb_refl. reflexivity.
  - apply truthy_false in Ht. contradiction.
Qed.

(** Identification returns another language: the provider is called once,
    and its error, if any, is replaced by the stripped text. *)
Lemma translate_text_detect_other value target w log lang w1 r w2 :
  Py.strip value <> "" ->
  detect svc (Py.strip value) w = (Py.Returned lang, w1) ->
  lang <> target ->
  translate svc "auto" target (Py.strip value) w1 = (r, w2) ->
  translate_text value target (w, log)
  = (match r with
     | Py.Returned translated => Py.Returned translated
     | Py.Raised _ => Py.Returned (Py.strip value)
     end,
     (w2, (log ++ [CallDetect (Py.strip value)])
            ++ [CallTranslate "auto" target (Py.strip value)])).
Proof.
  intros Hne Hd Hlang Ht.
  unfold translate_text, try_except, bind, call_detect, call_translate, Py.str.
  destruct (Py.truthy (Py.strip value)) eqn:Htr.
  - simpl. rewrite Hd. apply String.eqb_neq in Hlang. rewrite Hlang. simpl.
    rewrite Ht. destruct r; reflexivity.
  - apply truthy_false in Htr. contradiction.
Qed.

(** [translate_text] returns on every input and in every state. *)
Lemma translate_text_returns value target (st : state svc) :
  exists s st', translate_text value target st = (Py.Returned s, st').
Proof.
  destruct st as [w log].
  destruct (decide (Py.strip value = "")) as [He|Hne].
  { rewrite translate_text_empty by exact He. eauto. }
  destruct (detect svc (Py.strip value) w) as [[lang|e] w1] eqn:Hd.
  - destruct (decide (lang = target)) as [->|Hl].
    + erewrite translate_text_detect_target by eassumption. eauto.
    + destruct (translate svc "auto" target (Py.strip value) w1) as [r w2] eqn:Ht.
      erewrite translate_text_detect_other by eassumption.
      destruct r; eauto.
  - erewrite translate_text_detect_raises by eassumption. eauto.
Qed.

(** C2 (as amended): when identification raises, or identifies another
    language than the target and the provider then raises, [translate_text]
    returns the stripped text (the value itself when it has no surrounding
    whitespace) and raises nothing. *)
Theorem translate_text_absorbs_errors value target w log :
  (exists e w', detect svc (Py.strip value) w = (Py.Raised e, w'))
  \/ (exists lang w1 e w2,
        detect svc (Py.strip value) w = (Py.Returned lang, w1)
        /\ lang <> target
        /\ translate svc "auto" target (Py.strip value) w1 = (Py.Raised e, w2)) ->
  result_of (translate_text value target (w, log)) = Py.Returned (Py.strip value)
  /\ (Py.strip value = value ->
      result_of (translate_text value target (w, log)) = Py.Returned value).
Proof.
  intros H.
  assert (result_of (translate_text value target (w, log))
          = Py.Returned (Py.strip value)) as Hres.
  { destruct (decide (Py.strip value = "")) as [He|Hne].
    { rewrite translate_text_empty by exact He. by rewrite He. }
    destruct H as [(e & w' & Hd)|(lang & w1 & e & w2 & Hd & Hl & Ht)].
    - by erewrite translate_text_detect_raises by eassumption.
    - by erewrite translate_text_detect_other by eassumption. }
  split; [exact Hres|]. intros Heq. rewrite Hres. by rewrite Heq.
Qed.

(** C4 (as amended): when identification returns the target language,
    [translate_text] returns the stripped text (the value itself when it
    has no surrounding whitespace) and the calls it adds to the log contain
    no call to the translation provider. *)
Theorem translate_text_same_language value target w log w' :
  detect svc (Py.strip value) w = (Py.Returned target, w') ->
  result_of (translate_text value target (w, log)) = Py.Returned (Py.strip value)
  /\ (Py.strip value = value ->
      result_of (translate_text value target (w, log)) = Py.Returned value)
  /\ exists calls, log_of (translate_text value target (w, log)) = log ++ calls
                   /\ Forall (fun c => is_translate c = false) calls.
Proof.
  intros Hd.
  assert (result_of (translate_text value target (w, log))
          = Py.Returned (Py.strip value)
          /\ exists calls, log_of (translate_text value target (w, log)) = log ++ calls
                   /\ Forall (fun c => is_translate c = false) calls) as [Hres Hlog].
  { destruct (decide (Py.strip value = "")) as [He|Hne].
    - rewrite translate_text_empty by exact He. rewrite He. split; [reflexivity|].
      exists []. split; [by rewrite app_nil_r | constructor].
    - erewrite translate_text_detect_target by eassumption.
      split; [reflexivity|]. eexists. split; [reflexivity|].
      repeat constructor. }
  split; [exact Hres|]. split; [|exact Hlog].
  intros Heq. rewrite Hres. by rewrite Heq.
Qed.

(** C5 (as amended): on an input whose stripped text is empty,
    [translate_text] returns that stripped text, the empty string, and leaves
    the world and the call log as they were: neither service is called.  On
    [""] it returns [""], the input itself. *)
Theorem translate_text_blank target (st : state svc) :
  (forall value, Py.strip value = "" ->
     translate_text value target st = (Py.Returned (Py.strip value), st)
     /\ log_of (translate_text value target st) = snd st)
  /\ translate_text "" target st = (Py.Returned "", st).
Proof.
  split.
  - intros value H. rewrite translate_text_empty by exact H.
    rewrite H. split; reflexivity.
  - by apply translate_text_empty.
Qed.

(** C9: for a value with surrounding whitespace and a non-empty stripped
    text, each path that keeps the text untranslated (identification
    raises, identification returns the target, the provider raises)
    returns the stripped text and not the value as it was passed. *)
Theorem translate_text_untranslated_is_stripped value target w log :
  starts_with_space value = true \/ ends_with_space value = true ->
  Py.strip value <> "" ->
  (exists e w', detect svc (Py.strip value) w = (Py.Raised e, w'))
  \/ (exists w', detect svc (Py.strip value) w = (Py.Returned target, w'))
  \/ (exists lang w1 e w2,
        detect svc (Py.strip value) w = (Py.Returned lang, w1)
        /\ lang <> target
        /\ translate svc "auto" target (Py.strip value) w1 = (Py.Raised e, w2)) ->
  result_of (translate_text value target (w, log)) = Py.Returned (Py.strip value)
  /\ result_of (translate_text value target (w, log)) <> Py.Returned value.
Proof.
  intros Hws Hne H. apply strip_changes_padded in Hws.
  assert (result_of (translate_text value target (w, log))
          = Py.Returned (Py.strip value)) as Hres.
  { destruct H as [(e & w' & Hd)|[(w' & Hd)|(lang & w1 & e & w2 & Hd & Hl & Ht)]].
    - by erewrite translate_text_detect_raises by eassumption.
    - by erewrite translate_text_detect_target by eassumption.
    - by erewrite translate_text_detect_other by eassumption. }
  split; [exact Hres|]. rewrite Hres. intros Heq. inversion Heq. contradiction.
Qed.
End TranslatorFacts.

(** ** The processing loop *)

Section PipelineFacts.
Context {svc : Services}.
Variable enable_translation : bool.
Variable confirmed_lang_code : string.

Lemma mapM_returns {A B} (f : A -> M svc B) (l : list A) :
  (forall a st, exists b st', f a st = (Py.Returned b, st')) ->
  forall st, exists bs st', mapM f l st = (Py.Returned bs, st').
Proof.
  intros Hf. induction l as [|a l IH]; intros st; simpl.
  - unfold ret. eauto.
  - unfold bind. destruct (Hf a st) as (b & st1 & ->).
    destruct (IH st1) as (bs & st2 & ->). unfold ret. eauto.
Qed.

Lemma translate_df_returns d target (st : state svc) :
  exists d' st', translate_df d target st = (Py.Returned d', st').
Proof.
  unfold translate_df, applymap, bind.
  destruct (mapM_returns (mapM (fun x => translate_text x target))
              (map (column_values (values d)) (seq 0 (length (columns d))))) with (st := st)
    as (cols & st' & ->).
  - intros col st0. apply mapM_returns. intros x st1. apply translate_text_returns.
  - unfold ret. eauto.
Qed.

Lemma process_table_empty writer all_dfs i t (st : state svc) :
  Pandas.empty (df t) = true ->
  process_table enable_translation confirmed_lang_code (writer, all_dfs) (i, t) st
  = (Py.Returned (writer, all_dfs), st).
Proof. intros H. unfold process_table. rewrite H. reflexivity. Qed.

Lemma process_table_nonempty writer all_dfs i t (st : state svc) :
  Pandas.empty (df t) = false ->
  exists d st',
    process_table enable_translation confirmed_lang_code (writer, all_dfs) (i, t) st
    = (Py.Returned (writer ++ [(written_name (i, t), d)],
                    all_dfs ++ [written_name (i, t)]), st').
Proof.
  intros H. unfold process_table. rewrite H. unfold bind.
  destruct enable_translation.
  - match goal with |- context [translate_df ?d ?l st] =>
      destruct (translate_df_returns d l st) as (d' & st' & ->) end.
    unfold ret, format_excel, to_excel, written_name. simpl. eauto.
  - unfold ret, format_excel, to_excel, written_name. simpl. eauto.
Qed.

(** The loop returns; it appends to the writer and to [all_dfs] one entry
    per non-empty table, in order, under the same name. *)
Lemma foldM_process_table its : forall writer all_dfs (st : state svc),
  exists sheets st',
    foldM (process_table enable_translation confirmed_lang_code) (writer, all_dfs) its st
    = (Py.Returned (writer ++ sheets,
                    all_dfs ++ map written_name (filter nonempty_table its)), st')
    /\ map fst sheets = map written_name (filter nonempty_table its).
Proof.
  induction its as [|[i t] its IH]; intros writer all_dfs st.
  - exists [], st. simpl. unfold ret. by rewrite !app_nil_r.
  - cbn [foldM]. unfold bind.
    destruct (Pandas.empty (df t)) eqn:E.
    + rewrite process_table_empty by exact E. cbn beta iota.
      destruct (IH writer all_dfs st) as (sheets & st' & Hrun & Hn).
      exists sheets, st'.
      rewrite filter_cons_False by (unfold nonempty_table; simpl; rewrite E; simpl; auto).
      split; [exact Hrun | exact Hn].
    + destruct (process_table_nonempty writer all_dfs i t st E) as (d & st1 & ->).
      cbn beta iota.
      destruct (IH (writer ++ [(written_name (i, t), d)])
                   (all_dfs ++ [written_name (i, t)]) st1) as (sheets & st' & Hrun & Hn).
      exists ((written_name (i, t), d) :: sheets), st'.
      rewrite filter_cons_True by (unfold nonempty_table; simpl; rewrite E; simpl; auto).
      split.
      * etransitivity; [exact Hrun|]. simpl. by rewrite <- !app_assoc.
      * simpl. f_equal. exact Hn.
Qed.

Lemma process_tables_names tables (st : state svc) :
  exists writer st',
    process_tables enable_translation confirmed_lang_code tables st
    = (Py.Returned (writer, map written_name (filter nonempty_table (enumerate tables))), st')
    /\ written_names writer = map written_name (filter nonempty_table (enumerate tables)).
Proof.
  unfold process_tables, process_enumerated.
  destruct (foldM_process_table (enumerate tables) [] [] st) as (sheets & st' & H & Hn).
  exists sheets, st'. simpl in H. split; [exact H | exact Hn].
Qed.

Lemma foldM_app {A B} (f : A -> B -> M svc A) acc l1 l2 (st : state svc) :
  foldM f acc (l1 ++ l2) st = bind (foldM f acc l1) (fun acc' => foldM f acc' l2) st.
Proof.
  revert acc st. induction l1 as [|b l1 IH]; intros acc st; simpl.
  - reflexivity.
  - unfold bind. destruct (f acc b st) as [[acc'|e] st1]; [|reflexivity].
    rewrite IH. reflexivity.
Qed.
End PipelineFacts.

Section SheetFacts.
Context {svc : Services}.
Variable enable_translation : bool.
Variable confirmed_lang_code : string.

Lemma enumerate_elem {A} (l : list A) i a :
  (i, a) ∈ enumerate l <-> l !! i = Some a.
Proof.
  unfold enumerate. rewrite elem_of_lookup_imap. split.
  - intros (j & b & Heq & Hl). by inversion Heq; subst.
  - intros H. by exists i, a.
Qed.

Lemma map_filter_omap {A B} (P : A -> bool) (f : A -> B) (l : list A) :
  map f (filter P l) = omap (fun a => if P a then Some (f a) else None) l.
Proof.
  induction l as [|a l IH]; [reflexivity|]. simpl.
  destruct (P a) eqn:E.
  - rewrite filter_cons_True by (rewrite E; exact I). simpl. by rewrite IH.
  - rewrite filter_cons_False by (rewrite E; auto). exact IH.
Qed.

Lemma omap_pointwise {A B} (f g : A -> option B) (l : list A) :
  (forall a, f a = g a) -> omap f l = omap g l.
Proof.
  intros H. induction l as [|a l IH]; [reflexivity|].
  simpl. rewrite H. destruct (g a); [f_equal|]; exact IH.
Qed.

(** C6: the loop returns; the names it passes to [to_excel] are those it
    records in [all_dfs]; each is [Page_<page>_Table_<index>] cut to its
    first 31 characters, for the page of a table of the list and its
    position counted from one; each has at most 31 characters. *)
Theorem sheet_names_truncated tables (st : state svc) :
  exists writer all_dfs st',
    process_tables enable_translation confirmed_lang_code tables st
    = (Py.Returned (writer, all_dfs), st')
    /\ written_names writer = all_dfs
    /\ Forall (fun name =>
         String.length name <= 31
         /\ exists i t, tables !! i = Some t
              /\ name = Py.slice_to 31
                   ("Page_" +:+ Py.str_int (page t) +:+ "_Table_"
                    +:+ Py.str_int (Z.of_nat i + 1)))
       (written_names writer).
Proof.
  destruct (process_tables_names enable_translation confirmed_lang_code tables st)
    as (writer & st' & Hrun & Hn).
  exists writer. eexists. exists st'. split; [exact Hrun|]. split; [exact Hn|].
  rewrite Hn. apply Forall_forall. intros name Hin.
  apply list_elem_of_fmap in Hin. destruct Hin as ([i t] & -> & Hin).
  apply list_elem_of_filter in Hin. destruct Hin as [_ Hin].
  apply enumerate_elem in Hin.
  split; [apply slice_to_length|]. exists i, t. split; [exact Hin|]. reflexivity.
Qed.

(** C7: a table with zero data rows changes neither the writer nor
    [all_dfs] nor the services: its iteration is a no-op, and the loop over
    the tables ends in the same state as the loop that leaves its entry
    out (the other tables keeping their positions). *)
Theorem empty_table_skipped pre t post (st : state svc) :
  values (df t) = [] ->
  (forall loop_st i (st0 : state svc),
     process_table enable_translation confirmed_lang_code loop_st (i, t) st0
     = (Py.Returned loop_st, st0))
  /\ process_tables enable_translation confirmed_lang_code (pre ++ t :: post) st
     = process_enumerated enable_translation confirmed_lang_code
         (delete (length pre) (enumerate (pre ++ t :: post))) st.
Proof.
  intros Hrows.
  assert (Pandas.empty (df t) = true) as He by (unfold Pandas.empty; by rewrite Hrows).
  assert (forall loop_st i (st0 : state svc),
     process_table enable_translation confirmed_lang_code loop_st (i, t) st0
     = (Py.Returned loop_st, st0)) as Hstep.
  { intros [writer all_dfs] i st0. by apply process_table_empty. }
  split; [exact Hstep|].
  unfold process_tables, process_enumerated, enumerate.
  rewrite imap_app, imap_cons.
  rewrite <- (length_imap (fun i a => (i, a)) pre) at 2.
  rewrite delete_middle, !foldM_app. unfold bind.
  destruct (foldM _ _ (imap _ pre) st) as [[acc|e] st1]; [|reflexivity].
  cbn [foldM]. unfold bind. simpl. rewrite Hstep. reflexivity.
Qed.

(** C10: the sheet names are those of the non-empty tables in order, each
    numbered with its position, counted from one, in the whole list of
    tables, empty ones included; so an empty table followed by a non-empty
    one gives the single name [Page_<page>_Table_2]. *)
Theorem sheet_index_counts_empty_tables (st : state svc) :
  (forall tables, exists writer all_dfs st',
     process_tables enable_translation confirmed_lang_code tables st
     = (Py.Returned (writer, all_dfs), st')
     /\ written_names writer
        = omap (fun it : nat * Table =>
                  if Pandas.empty (df it.2) then None
                  else Some (Py.slice_to 31
                         ("Page_" +:+ Py.str_int (page it.2) +:+ "_Table_"
                          +:+ Py.str_int (Z.of_nat it.1 + 1))))
               (enumerate tables))
  /\ (forall t1 t2,
        Pandas.empty (df t1) = true -> Pandas.empty (df t2) = false ->
        exists writer all_dfs st',
          process_tables enable_translation confirmed_lang_code [t1; t2] st
          = (Py.Returned (writer, all_dfs), st')
          /\ written_names writer
             = [Py.slice_to 31 ("Page_" +:+ Py.str_int (page t2) +:+ "_Table_2")]).
Proof.
  assert (forall tables, exists writer all_dfs st',
     process_tables enable_translation confirmed_lang_code tables st
     = (Py.Returned (writer, all_dfs), st')
     /\ written_names writer
        = omap (fun it : nat * Table =>
                  if Pandas.empty (df it.2) then None
                  else Some (Py.slice_to 31
                         ("Page_" +:+ Py.str_int (page it.2) +:+ "_Table_"
                          +:+ Py.str_int (Z.of_nat it.1 + 1))))
               (enumerate tables)) as Hall.
  { intros tables.
    destruct (process_tables_names enable_translation confirmed_lang_code tables st)
      as (writer & st' & Hrun & Hn).
    exists writer. eexists. exists st'. split; [exact Hrun|]. rewrite Hn.
    rewrite (map_filter_omap nonempty_table written_name).
    apply omap_pointwise. intros [i t]. unfold nonempty_table, written_name. simpl.
    destruct (Pandas.empty (df t)); reflexivity. }
  split; [exact Hall|].
  intros t1 t2 H1 H2. destruct (Hall [t1; t2]) as (writer & all_dfs & st' & Hrun & Hn).
  exists writer, all_dfs, st'. split; [exact Hrun|]. rewrite Hn.
  simpl. rewrite H1, H2. reflexivity.
Qed.
End SheetFacts.

(** ** post_formatting *)

Lemma set_alignment_twice a c : set_alignment a (set_alignment a c) = set_alignment a c.
Proof. reflexivity. Qed.

Lemma set_widths_lookup letters w : forall (dims : gmap string ColumnDimension) k,
  set_widths letters w dims !! k
  = if decide (k ∈ letters)
    then Some {| width := w; hidden := hidden (default default_dimension (dims !! k)) |}
    else dims !! k.
Proof.
  unfold set_widths. induction letters as [|l letters IH]; intros dims k; cbn [foldl].
  - destruct (decide (k ∈ [])) as [H|_]; [by apply not_elem_of_nil in H | reflexivity].
  - rewrite IH.
    assert (set_width l w dims !! k
            = if decide (k = l)
              then Some {| width := w;
                           hidden := hidden (default default_dimension (dims !! k)) |}
              else dims !! k) as ->.
    { unfold set_width. destruct (decide (k = l)) as [->|Hne].
      - by rewrite lookup_insert_eq.
      - by rewrite lookup_insert_ne. }
    destruct (decide (k ∈ letters)) as [Hin|Hnin], (decide (k = l)) as [Heq|Hne],
      (decide (k ∈ l :: letters)) as [Hin2|Hnin2];
      try reflexivity; exfalso; rewrite elem_of_cons in *; tauto.
Qed.

Lemma set_widths_twice letters w (dims : gmap string ColumnDimension) :
  set_widths letters w (set_widths letters w dims) = set_widths letters w dims.
Proof.
  apply map_eq. intros k. rewrite !set_widths_lookup.
  destruct (decide (k ∈ letters)); reflexivity.
Qed.

Lemma foldl_columns_set_widths (cols : list (Cell * list Cell)) w dims :
  foldl (fun dims col => set_width (column_letter (fst col)) w dims) dims cols
  = set_widths (map (fun col => column_letter (fst col)) cols) w dims.
Proof.
  unfold set_widths. revert dims. induction cols as [|col cols IH]; intros dims; simpl.
  - reflexivity.
  - apply IH.
Qed.

Lemma format_sheet_eq ws :
  format_sheet ws
  = {| title := title ws;
       rows := wrap_rows (rows ws);
       column_dimensions :=
         set_widths (column_letters (wrap_rows (rows ws))) 35 (column_dimensions ws) |}.
Proof.
  unfold format_sheet. rewrite foldl_columns_set_widths. reflexivity.
Qed.

Lemma wrap_rows_twice rs : wrap_rows (wrap_rows rs) = wrap_rows rs.
Proof.
  unfold wrap_rows. rewrite map_map. apply map_ext. intros row.
  rewrite map_map. reflexivity.
Qed.

(** Formatting a sheet a second time changes nothing. *)
Lemma format_sheet_twice ws : format_sheet (format_sheet ws) = format_sheet ws.
Proof.
  rewrite (format_sheet_eq (format_sheet ws)), (format_sheet_eq ws).
  cbn [title rows column_dimensions].
  rewrite wrap_rows_twice, set_widths_twice. reflexivity.
Qed.

Lemma format_sheet_title ws : title (format_sheet ws) = title ws.
Proof. reflexivity. Qed.

Lemma getitem_lookup wb name k ws :
  getitem wb name = Some (k, ws) -> wb !! k = Some ws /\ title ws = name.
Proof.
  revert k. induction wb as [|ws0 wb IH]; intros k; simpl; [discriminate|].
  destruct (String.eqb (title ws0) name) eqn:E.
  - intros H. inversion H; subst. split; [reflexivity|]. by apply String.eqb_eq.
  - destruct (getitem wb name) as [[k' ws']|]; simpl; [|discriminate].
    intros H. inversion H; subst. apply IH. reflexivity.
Qed.

(** Replacing a sheet by one of the same title moves no sheet: every name
    is found at the position it had, with the replaced sheet at its place. *)
Lemma getitem_insert wb k2 ws2 ws2' name :
  wb !! k2 = Some ws2 -> title ws2' = title ws2 ->
  getitem (<[k2 := ws2']> wb) name
  = (fun p : nat * Worksheet => (p.1, if decide (p.1 = k2) then ws2' else p.2))
      <$> getitem wb name.
Proof.
  revert k2. induction wb as [|ws0 wb IH]; intros k2 Hk Ht; [discriminate|].
  destruct k2 as [|k2].
  - simpl in Hk. inversion Hk; subst ws0.
    change (<[0 := ws2']> (ws2 :: wb)) with (ws2' :: wb).
    cbn [getitem]. rewrite Ht.
    destruct (String.eqb (title ws2) name); [reflexivity|].
    destruct (getitem wb name) as [[k ws]|]; reflexivity.
  - change (<[S k2 := ws2']> (ws0 :: wb)) with (ws0 :: <[k2 := ws2']> wb).
    cbn [getitem].
    destruct (String.eqb (title ws0) name); [reflexivity|].
    etransitivity;
      [exact (f_equal (fmap (prod_map S id)) (IH k2 Hk Ht))|].
    destruct (getitem wb name) as [[k ws]|]; [|reflexivity].
    cbn. destruct (decide (k = k2)) as [->|Hne].
    + rewrite decide_True by reflexivity. reflexivity.
    + rewrite decide_False by lia. reflexivity.
Qed.

(** A sheet that is already formatted stays findable and formatted while
    other names are processed. *)
Lemma format_sheets_keeps names : forall wb wb' name k ws,
  format_sheets wb names = Py.Returned wb' ->
  getitem wb name = Some (k, ws) -> format_sheet ws = ws ->
  exists ws', getitem wb' name = Some (k, ws') /\ format_sheet ws' = ws'.
Proof.
  induction names as [|m names IH]; intros wb wb' name k ws Hrun Hget Hfix; simpl in Hrun.
  - inversion Hrun; subst. eauto.
  - destruct (getitem wb m) as [[k2 ws2]|] eqn:Hm; [|discriminate].
    destruct (getitem_lookup _ _ _ _ Hm) as [Hk2 _].
    pose proof (getitem_insert wb k2 ws2 (format_sheet ws2) name Hk2
                  (format_sheet_title ws2)) as Hins.
    rewrite Hget in Hins. simpl in Hins.
    eapply IH; [exact Hrun | exact Hins |].
    destruct (decide (k = k2)) as [->|Hne]; [|exact Hfix].
    apply format_sheet_twice.
Qed.

(** After the loop every listed name leads to a formatted sheet. *)
Lemma format_sheets_formats names : forall wb wb',
  format_sheets wb names = Py.Returned wb' ->
  forall name, name ∈ names ->
    exists k ws, getitem wb' name = Some (k, ws) /\ format_sheet ws = ws.
Proof.
  induction names as [|m names IH]; intros wb wb' Hrun name Hin.
  - by apply not_elem_of_nil in Hin.
  - simpl in Hrun.
    destruct (getitem wb m) as [[k2 ws2]|] eqn:Hm; [|discriminate].
    destruct (getitem_lookup _ _ _ _ Hm) as [Hk2 _].
    apply elem_of_cons in Hin. destruct Hin as [->|Hin].
    + pose proof (getitem_insert wb k2 ws2 (format_sheet ws2) m Hk2
                    (format_sheet_title ws2)) as Hins.
      rewrite Hm in Hins. simpl in Hins. rewrite decide_True in Hins by reflexivity.
      destruct (format_sheets_keeps names _ _ _ _ _ Hrun Hins (format_sheet_twice ws2))
        as (ws' & Hget & Hfix).
      eauto.
    + eapply IH; eassumption.
Qed.

(** On a workbook whose listed sheets are all formatted the loop changes
    nothing. *)
Lemma format_sheets_fixpoint names : forall wb,
  (forall name, name ∈ names ->
     exists k ws, getitem wb name = Some (k, ws) /\ format_sheet ws = ws) ->
  format_sheets wb names = Py.Returned wb.
Proof.
  induction names as [|m names IH]; intros wb H; [reflexivity|]. cbn [format_sheets].
  destruct (H m) as (k & ws & Hget & Hfix); [apply elem_of_cons; by left|].
  rewrite Hget, Hfix.
  destruct (getitem_lookup _ _ _ _ Hget) as [Hk _].
  replace (<[k := ws]> wb) with wb by (symmetry; apply list_insert_id; exact Hk).
  apply IH. intros name Hin. apply H. apply elem_of_cons. by right.
Qed.

(** C8: running [post_formatting] on what a first run left in [excel_io]
    gives the same outcome and leaves the same workbook; in particular the
    workbook saved by a successful run is saved again unchanged. *)
Theorem post_formatting_idempotent (excel_io : Workbook) (sheet_names : list string) :
  post_formatting (snd (post_formatting excel_io sheet_names)) sheet_names
  = post_formatting excel_io sheet_names.
Proof.
  unfold post_formatting.
  destruct (format_sheets excel_io sheet_names) as [wb|e] eqn:Hrun; simpl.
  - rewrite (format_sheets_fixpoint sheet_names wb); [reflexivity|].
    eapply format_sheets_formats. exact Hrun.
  - rewrite Hrun. reflexivity.
Qed.

(** ** The statements at concrete inputs *)

Import Scenario.

Example strip_examples :
  Py.strip "  a b  " = "a b" /\ Py.strip "   " = "" /\ Py.strip "" = ""
  /\ Py.strip (String Py.newline "x" +:+ String (ascii_of_nat 9) "") = "x".
Proof. repeat split. Qed.

Example split_examples :
  Py.split Py.newline "" = [""]
  /\ Py.split Py.newline ("A" +:+ String Py.newline "B") = ["A"; "B"]
  /\ Py.split Py.newline ("A" +:+ String Py.newline "") = ["A"; ""]
  /\ Py.split Py.newline "  " = ["  "].
Proof. repeat split. Qed.

Example sheet_name_examples :
  sheet_name (mkTable 1 (frame [])) 0 = "Page_1_Table_1"
  /\ sheet_name (mkTable 12 (frame [])) 9 = "Page_12_Table_10"
  /\ Py.slice_to 31 (sheet_name (mkTable 1234567890123456789 (frame [])) 9)
     = "Page_1234567890123456789_Table_".
Proof. repeat split; vm_compute; reflexivity. Qed.

(** One table on page 1 whose second row has a two-line cell, translation
    off: one sheet [Page_1_Table_1], the merged row split in two, no service
    called. *)
Example process_merged_table :
  process_tables (svc := english) false "en" [merged_table] (0, [])
  = (Py.Returned
       ([("Page_1_Table_1",
          mkDataFrame [Py.LStr "0"; Py.LStr "1"]
                      [["h0"; "h1"]; ["X"; "A"]; [""; "B"]])],
        ["Page_1_Table_1"]),
     (0, [])).
Proof. vm_compute. reflexivity. Qed.

(** With translation on and every cell identified as the target language,
    each cell costs one identification and no translation. *)
Example process_same_language :
  let r := process_tables (svc := english) true "en" [merged_table] (0, []) in
  result_of r
  = Py.Returned
      ([("Page_1_Table_1",
         mkDataFrame [Py.LStr "0"; Py.LStr "1"]
                     [["h0"; "h1"]; ["X"; "A"]; [""; "B"]])],
       ["Page_1_Table_1"])
  /\ log_of r = [CallDetect "h0"; CallDetect "X"; CallDetect "h1";
                 CallDetect "A"; CallDetect "B"].
Proof. vm_compute. split; reflexivity. Qed.

(** C2, at a value without surrounding whitespace: French is identified,
    the provider raises, ["bonjour"] comes back. *)
Lemma translate_text_absorbs_errors_witness :
  detect provider_down (Py.strip "bonjour") 0 = (Py.Returned "fr", 1)
  /\ translate provider_down "auto" "en" (Py.strip "bonjour") 1
     = (Py.Raised provider_error, 2)
  /\ result_of (translate_text (svc := provider_down) "bonjour" "en" (0, []))
     = Py.Returned "bonjour".
Proof.
  split; [reflexivity|]. split; [reflexivity|].
  apply (translate_text_absorbs_errors (svc := provider_down) "bonjour" "en" 0 []).
  - right. exists "fr", 1, provider_error, 2.
    split; [reflexivity|]. split; [discriminate | reflexivity].
  - reflexivity.
Defined.

(** C2 as stated fails: identification raises on [" a "], and what comes
    back is ["a"], not the value that was passed. *)
Lemma translate_text_error_returns_stripped :
  (exists e w', detect undetectable (Py.strip " a ") 0 = (Py.Raised e, w'))
  /\ result_of (translate_text (svc := undetectable) " a " "en" (0, [])) = Py.Returned "a"
  /\ result_of (translate_text (svc := undetectable) " a " "en" (0, [])) <> Py.Returned " a ".
Proof.
  split; [by exists detection_error, 1|]. split; [reflexivity | discriminate].
Qed.

(** C4, at a value without surrounding whitespace. *)
Lemma translate_text_same_language_witness :
  detect english (Py.strip "hello") 0 = (Py.Returned "en", 1)
  /\ result_of (translate_text (svc := english) "hello" "en" (0, [])) = Py.Returned "hello"
  /\ log_of (translate_text (svc := english) "hello" "en" (0, [])) = [CallDetect "hello"].
Proof.
  split; [reflexivity|].
  destruct (translate_text_same_language (svc := english) "hello" "en" 0 [] 1 eq_refl)
    as (_ & Hsame & _).
  split; [exact (Hsame eq_refl) | reflexivity].
Defined.

(** C4 as stated fails: [" hi "] is identified as the target language, the
    provider is not called, and ["hi"] comes back, not the value passed. *)
Lemma translate_text_same_language_returns_stripped :
  detect english (Py.strip " hi ") 0 = (Py.Returned "en", 1)
  /\ translate_text (svc := english) " hi " "en" (0, [])
     = (Py.Returned "hi", (1, [CallDetect "hi"]))
  /\ result_of (translate_text (svc := english) " hi " "en" (0, [])) <> Py.Returned " hi ".
Proof. split; [reflexivity|]. split; [reflexivity | discriminate]. Qed.

(** C5 as stated fails on an input of spaces only: no service is called,
    but what comes back is [""], not the input. *)
Lemma translate_text_blank_returns_empty :
  Py.strip "   " = ""
  /\ translate_text (svc := english) "   " "en" (0, []) = (Py.Returned "", (0, []))
  /\ result_of (translate_text (svc := english) "   " "en" (0, [])) <> Py.Returned "   ".
Proof. split; [reflexivity|]. split; [reflexivity | discriminate]. Qed.

(** C9, at [" a "] on the path where the provider raises. *)
Lemma translate_text_untranslated_is_stripped_witness :
  starts_with_space " a " = true
  /\ result_of (translate_text (svc := provider_down) " a " "en" (0, [])) = Py.Returned "a"
  /\ result_of (translate_text (svc := provider_down) " a " "en" (0, [])) <> Py.Returned " a ".
Proof.
  split; [reflexivity|].
  apply (translate_text_untranslated_is_stripped (svc := provider_down) " a " "en" 0 []).
  - left. reflexivity.
  - discriminate.
  - right. right. exists "fr", 1, provider_error, 2.
    split; [reflexivity|]. split; [discriminate | reflexivity].
Defined.

(** C7, at an empty table between two tables with rows. *)
Lemma empty_table_skipped_witness :
  values (df empty_table) = []
  /\ process_tables (svc := english) true "en" [merged_table; empty_table; merged_table] (0, [])
     = process_enumerated (svc := english) true "en"
         [(0, merged_table); (2, merged_table)] (0, []).
Proof.
  split; [reflexivity|].
  exact (proj2 (empty_table_skipped (svc := english) true "en"
                  [merged_table] empty_table [merged_table] (0, []) eq_refl)).
Defined.


(** * Further properties *)

(** ** Row expansion: what the returned frame looks like *)

Lemma any_false_Forall {A} (f : A -> bool) (l : list A) :
  Py.any (map f l) = false <-> Forall (fun a => f a = false) l.
Proof.
  unfold Py.any. induction l as [|a l IH]; simpl.
  - split; [constructor | reflexivity].
  - rewrite orb_false_iff, IH, Forall_cons. unfold id. tauto.
Qed.

Lemma new_row_clean row i : clean_row (new_row (row_parts row) i).
Proof.
  unfold clean_row, new_row, row_parts. rewrite map_map.
  apply Forall_fmap, Forall_forall. intros cell _. simpl.
  case_bool_decide as Hi; [|reflexivity].
  apply lookup_lt_is_Some in Hi. destruct Hi as [seg Hseg]. rewrite Hseg. simpl.
  pose proof (split_segments_clean Py.newline (Py.str cell)) as Hc.
  rewrite Forall_forall in Hc. apply Hc. apply list_elem_of_lookup. by exists i.
Qed.

Lemma sub_rows_clean row : Forall clean_row (sub_rows row).
Proof.
  unfold sub_rows, expand_row.
  destruct (Py.any _) eqn:E.
  - cbv zeta. rewrite foldl_snoc. simpl.
    apply Forall_fmap, Forall_forall. intros i _. apply new_row_clean.
  - simpl. constructor; [|constructor].
    apply any_false_Forall in E. exact E.
Qed.

Lemma concat_sub_rows_clean rows :
  Forall clean_row rows -> concat (map sub_rows rows) = rows.
Proof.
  induction 1 as [|row rows Hrow _ IH]; [reflexivity|].
  simpl. rewrite (sub_rows_single row Hrow), IH. reflexivity.
Qed.

Lemma split_merged_rows_clean d : Forall clean_row (values (split_merged_rows d)).
Proof.
  rewrite split_merged_rows_values.
  induction (values d) as [|row rows IH]; simpl; [constructor|].
  apply Forall_app. split; [apply sub_rows_clean | exact IH].
Qed.

(** X1: whatever the input frame, no cell of the frame [split_merged_rows]
    returns contains a line break. *)
Theorem split_merged_rows_no_line_break (d : DataFrame) :
  forall row cell,
    row ∈ values (split_merged_rows d) -> cell ∈ row ->
    Py.contains Py.newline cell = false
    /\ Py.split Py.newline cell = [cell].
Proof.
  intros row cell Hrow Hcell.
  pose proof (split_merged_rows_clean d) as H.
  rewrite Forall_forall in H. specialize (H row Hrow).
  unfold clean_row in H. rewrite Forall_forall in H. specialize (H cell Hcell).
  split; [exact H | by apply contains_false_split].
Qed.

Lemma DataFrame_eq (d1 d2 : DataFrame) :
  columns d1 = columns d2 -> values d1 = values d2 -> d1 = d2.
Proof. destruct d1, d2. simpl. intros -> ->. reflexivity. Qed.

(** X2: expanding an already expanded frame changes nothing. *)
Theorem split_merged_rows_idempotent (d : DataFrame) :
  split_merged_rows (split_merged_rows d) = split_merged_rows d.
Proof.
  assert (values (split_merged_rows (split_merged_rows d))
          = values (split_merged_rows d)) as Hv.
  { rewrite (split_merged_rows_values (split_merged_rows d)).
    apply concat_sub_rows_clean, split_merged_rows_clean. }
  apply DataFrame_eq; [reflexivity | exact Hv].
Qed.

Lemma sub_rows_cases row :
  (Exists (fun cell => 1 < length (Py.split Py.newline cell)) row
   /\ sub_rows row = map (new_row (row_parts row)) (seq 0 (max_segments row)))
  \/ (clean_row row /\ sub_rows row = [row]).
Proof.
  destruct (Py.any (map (fun cell => Py.contains Py.newline (Py.str cell)) row)) eqn:E.
  - left. apply any_contains_row in E. split; [exact E | by apply sub_rows_multi].
  - right. apply any_false_Forall in E. split; [exact E | by apply sub_rows_single].
Qed.

(** X3: expansion loses no text.  For the cell of column j of a row, the
    first sub-rows, as many as the cell has segments, hold these segments in
    column j in order, so that joining them with line breaks gives the cell
    back; every later sub-row of the row holds the empty string there. *)
Theorem sub_rows_lossless (row : list string) (j : nat) (cell : string) :
  row !! j = Some cell ->
  let segs := Py.split Py.newline cell in
  (fun sub : list string => sub !! j) <$> take (length segs) (sub_rows row)
    = Some <$> segs
  /\ Py.join Py.newline segs = cell
  /\ Forall (fun sub : list string => sub !! j = Some "")
            (drop (length segs) (sub_rows row)).
Proof.
  intros Hj segs. split; [|split; [apply join_split|]].
  - destruct (sub_rows_cases row) as [[Hm ->]|[Hc ->]].
    + assert (length segs <= max_segments row) as Hle.
      { apply max_segments_upper, list_elem_of_lookup. by exists j. }
      rewrite <- fmap_take, take_seq, Nat.min_l by exact Hle.
      rewrite <- list_fmap_compose.
      apply list_eq. intros i. rewrite !list_lookup_fmap.
      destruct (decide (i < length segs)) as [Hi|Hi].
      * rewrite lookup_seq_lt by exact Hi. simpl.
        rewrite (new_row_lookup row i j cell Hj).
        rewrite bool_decide_eq_true_2 by exact Hi.
        apply lookup_lt_is_Some in Hi. destruct Hi as [seg Hseg].
        fold segs. rewrite Hseg. reflexivity.
      * rewrite lookup_seq_ge by lia. simpl.
        rewrite lookup_ge_None_2 by lia. reflexivity.
    + unfold clean_row in Hc. rewrite Forall_forall in Hc.
      assert (Py.contains Py.newline cell = false) as Hcell.
      { apply Hc, list_elem_of_lookup. by exists j. }
      subst segs. rewrite (contains_false_split _ _ Hcell). simpl. by rewrite Hj.
  - destruct (sub_rows_cases row) as [[Hm ->]|[Hc ->]].
    + rewrite <- fmap_drop. apply Forall_fmap, Forall_forall. intros i Hi.
      simpl. rewrite (new_row_lookup row i j cell Hj).
      apply list_elem_of_lookup_1 in Hi as [k Hk]. rewrite lookup_drop in Hk.
      apply lookup_seq in Hk. destruct Hk as [-> _].
      rewrite bool_decide_eq_false_2; [reflexivity|]. fold segs. lia.
    + pose proof (split_length_pos Py.newline cell). fold segs in H.
      destruct (length segs) as [|n]; [lia|]. simpl. rewrite drop_nil. constructor.
Qed.

Lemma max_ones (ns : list nat) : Forall (fun n => n = 1) ns -> Py.max ns <= 1.
Proof. unfold Py.max. induction 1; simpl; lia. Qed.

Lemma sub_rows_count row : length (sub_rows row) = Nat.max 1 (max_segments row).
Proof.
  destruct (sub_rows_cases row) as [[Hm ->]|[Hc ->]].
  - rewrite length_map, length_seq.
    apply Exists_exists in Hm. destruct Hm as (cell & Hin & Hlen).
    pose proof (max_segments_upper row cell Hin). lia.
  - simpl. assert (max_segments row <= 1); [|lia].
    apply max_ones, Forall_fmap. eapply Forall_impl; [exact Hc|].
    intros cell H. simpl. by rewrite (contains_false_split _ _ H).
Qed.

(** X4: the returned frame has, for each input row, one row or as many rows
    as the row's longest cell has segments; so it never has fewer rows than
    the input, and a frame without rows stays without rows. *)
Theorem split_merged_rows_row_count (d : DataFrame) :
  length (values (split_merged_rows d))
    = sum_list (map (fun row => Nat.max 1 (max_segments row)) (values d))
  /\ length (values d) <= length (values (split_merged_rows d))
  /\ (values d = [] -> values (split_merged_rows d) = []).
Proof.
  rewrite split_merged_rows_values.
  assert (length (concat (map sub_rows (values d)))
          = sum_list (map (fun row => Nat.max 1 (max_segments row)) (values d))) as Hlen.
  { induction (values d) as [|row rows IH]; [reflexivity|].
    simpl. rewrite length_app, IH, sub_rows_count. reflexivity. }
  split; [exact Hlen|]. split.
  - rewrite Hlen. clear Hlen. induction (values d) as [|row rows IH]; simpl; lia.
  - intros ->. reflexivity.
Qed.

(** ** translate_text and translate_df: calls made and shape kept *)

Section TranslatorMore.
Context {svc : Services}.
Implicit Types (value target : string) (w : World svc) (log : list call).

(** The three ways a call of [translate_text] can use the services. *)
Lemma translate_text_cases value target w log :
  let text := Py.strip value in
  (text = "" /\ translate_text value target (w, log) = (Py.Returned "", (w, log)))
  \/ (text <> "" /\ exists w1,
        translate_text value target (w, log)
        = (Py.Returned text, (w1, log ++ [CallDetect text])))
  \/ (text <> "" /\ exists s w2,
        translate_text value target (w, log)
        = (Py.Returned s,
           (w2, log ++ [CallDetect text; CallTranslate "auto" target text]))).
Proof.
  intros text. subst text.
  destruct (decide (Py.strip value = "")) as [He|Hne].
  { left. split; [exact He | by apply translate_text_empty]. }
  right.
  destruct (detect svc (Py.strip value) w) as [[lang|e] w1] eqn:Hd.
  - destruct (decide (lang = target)) as [->|Hl].
    + left. split; [exact Hne|]. exists w1. by apply translate_text_detect_target.
    + right. split; [exact Hne|].
      destruct (translate svc "auto" target (Py.strip value) w1) as [r w2] eqn:Ht.
      rewrite (translate_text_detect_other _ _ _ log _ _ _ _ Hne Hd Hl Ht).
      rewrite <- app_assoc. simpl. destruct r; eauto.
  - left. split; [exact Hne|]. exists w1. by eapply translate_text_detect_raises.
Qed.

(** X5: whatever the services do, [translate_text] returns a string and
    raises nothing; it calls identification at most once, on the stripped
    text, and the provider at most once, after identification, with source
    "auto", the target language and the stripped text. *)
Theorem translate_text_never_raises value target w log :
  exists s w' calls,
    translate_text value target (w, log) = (Py.Returned s, (w', log ++ calls))
    /\ (calls = []
        \/ calls = [CallDetect (Py.strip value)]
        \/ calls = [CallDetect (Py.strip value);
                    CallTranslate "auto" target (Py.strip value)])
    /\ (Py.strip value = "" <-> calls = []).
Proof.
  destruct (translate_text_cases value target w log)
    as [[He H]|[[Hne (w1 & H)]|[Hne (s & w2 & H)]]]; rewrite H.
  - exists "", w, []. rewrite app_nil_r. split; [reflexivity|]. split; [by left | tauto].
  - exists (Py.strip value), w1, [CallDetect (Py.strip value)].
    split; [reflexivity|]. split; [right; by left|]. split; [contradiction | discriminate].
  - exists s, w2, [CallDetect (Py.strip value); CallTranslate "auto" target (Py.strip value)].
    split; [reflexivity|]. split; [right; by right|]. split; [contradiction | discriminate].
Qed.

(** X6: when the stripped text is not empty, identification returns a
    language other than the target and the provider returns a text,
    [translate_text] returns exactly that text; the provider was asked for
    the stripped text, not for the value as passed. *)
Theorem translate_text_translates value target w log lang w1 translated w2 :
  Py.strip value <> "" ->
  detect svc (Py.strip value) w = (Py.Returned lang, w1) ->
  lang <> target ->
  translate svc "auto" target (Py.strip value) w1 = (Py.Returned translated, w2) ->
  translate_text value target (w, log)
  = (Py.Returned translated,
     (w2, log ++ [CallDetect (Py.strip value);
                  CallTranslate "auto" target (Py.strip value)])).
Proof.
  intros Hne Hd Hl Ht.
  rewrite (translate_text_detect_other _ _ _ log _ _ _ _ Hne Hd Hl Ht).
  by rewrite <- app_assoc.
Qed.

(** [mapM] of a function that always returns: the results are related to
    the arguments one by one, and the state moves along a preorder. *)
Lemma mapM_related {A B} (f : A -> M svc B) (R : A -> B -> Prop)
    (Q : state svc -> state svc -> Prop) :
  (forall s, Q s s) -> (forall s1 s2 s3, Q s1 s2 -> Q s2 s3 -> Q s1 s3) ->
  (forall a s, exists b s', f a s = (Py.Returned b, s') /\ R a b /\ Q s s') ->
  forall l st, exists bs st',
    mapM f l st = (Py.Returned bs, st') /\ Forall2 R l bs /\ Q st st'.
Proof.
  intros Hrefl Htrans Hf. induction l as [|a l IH]; intros st.
  - exists [], st. split; [reflexivity|]. split; [constructor | apply Hrefl].
  - destruct (Hf a st) as (b & s1 & Hfa & Hr & Hq1).
    destruct (IH s1) as (bs & s2 & Hm & Hrs & Hq2).
    exists (b :: bs), s2. cbn [mapM]. unfold bind. rewrite Hfa, Hm.
    split; [reflexivity|]. split; [by constructor | by eapply Htrans].
Qed.

Lemma omap_total_lookup {A B} (g : A -> option B) (l : list A) j :
  Forall (fun a => is_Some (g a)) l -> omap g l !! j = l !! j ≫= g.
Proof.
  intros H. revert j. induction H as [|a l [b Hb] _ IH]; intros j; [reflexivity|].
  cbn [omap list_omap]. rewrite Hb. destruct j as [|j]; simpl.
  - by rewrite Hb.
  - apply IH.
Qed.

Lemma omap_total_length {A B} (g : A -> option B) (l : list A) :
  Forall (fun a => is_Some (g a)) l -> length (omap g l) = length l.
Proof.
  induction 1 as [|a l [b Hb] _ IH]; [reflexivity|].
  cbn [omap list_omap]. rewrite Hb. simpl. by rewrite IH.
Qed.

(** What [applymap] does with a function that always returns. *)
Lemma applymap_related (f : string -> M svc string) (R : string -> string -> Prop)
    (Q : state svc -> state svc -> Prop) :
  (forall s, Q s s) -> (forall s1 s2 s3, Q s1 s2 -> Q s2 s3 -> Q s1 s3) ->
  (forall a s, exists b s', f a s = (Py.Returned b, s') /\ R a b /\ Q s s') ->
  forall d st, exists d' st',
    applymap f d st = (Py.Returned d', st')
    /\ Q st st'
    /\ columns d' = columns d
    /\ length (values d') = length (values d)
    /\ (wf d ->
        wf d'
        /\ forall i j cell,
             values d !! i ≫= (fun row => row !! j) = Some cell ->
             exists cell', values d' !! i ≫= (fun row => row !! j) = Some cell'
                           /\ R cell cell').
Proof.
  intros Hrefl Htrans Hf d st. unfold applymap, bind.
  set (cols := map (column_values (values d)) (seq 0 (length (columns d)))).
  destruct (mapM_related (mapM f) (Forall2 R) Q Hrefl Htrans
              (mapM_related f R Q Hrefl Htrans Hf) cols st)
    as (cols' & st' & -> & Hcols & Hq).
  eexists. exists st'. split; [reflexivity|]. split; [exact Hq|].
  split; [reflexivity|]. cbn [values columns].
  split; [unfold of_columns; by rewrite length_map, length_seq|].
  intros Hwf. unfold wf in Hwf. rewrite Forall_forall in Hwf.
  assert (length cols' = length (columns d)) as Hn.
  { rewrite <- (Forall2_length _ _ _ Hcols). unfold cols.
    by rewrite length_map, length_seq. }
  assert (forall j, j < length (columns d) ->
            Forall (fun row : list string => is_Some (row !! j)) (values d)) as Hsome.
  { intros j Hj. apply Forall_forall. intros row Hrow.
    apply lookup_lt_is_Some. rewrite (Hwf row Hrow). exact Hj. }
  assert (forall j col', cols' !! j = Some col' -> length col' = length (values d)) as Hlen.
  { intros j col' Hj.
    destruct (Forall2_lookup_r _ _ _ _ _ Hcols Hj) as (col & Hcol & Hrel).
    rewrite <- (Forall2_length _ _ _ Hrel).
    unfold cols in Hcol. rewrite list_lookup_fmap in Hcol.
    destruct (seq 0 (length (columns d)) !! j) as [j'|] eqn:Hseq; [|discriminate].
    apply lookup_seq in Hseq. destruct Hseq as [-> Hlt]. simpl in Hcol.
    inversion Hcol; subst col. unfold column_values.
    apply omap_total_length, Hsome. exact Hlt. }
  assert (forall i, i < length (values d) ->
            Forall (fun col : list string => is_Some (col !! i)) cols') as Hsome'.
  { intros i Hi. apply Forall_forall. intros col' Hin.
    apply list_elem_of_lookup_1 in Hin as [j Hj].
    apply lookup_lt_is_Some. rewrite (Hlen j col' Hj). exact Hi. }
  assert (forall i, i < length (values d) ->
            of_columns (length (values d)) cols' !! i
            = Some (omap (fun col : list string => col !! i) cols')) as Hrow.
  { intros i Hi. unfold of_columns.
    rewrite list_lookup_fmap, lookup_seq_lt by exact Hi. reflexivity. }
  split.
  - unfold wf. cbn [values columns]. apply Forall_forall. intros row' Hin.
    apply list_elem_of_lookup_1 in Hin as [i Hi].
    assert (i < length (values d)) as Hlt.
    { apply lookup_lt_Some in Hi. unfold of_columns in Hi.
      by rewrite length_map, length_seq in Hi. }
    rewrite (Hrow i Hlt) in Hi. inversion Hi; subst row'.
    rewrite omap_total_length by (by apply Hsome'). exact Hn.
  - intros i j cell Hcell.
    destruct (values d !! i) as [row|] eqn:Hi; [|discriminate]. simpl in Hcell.
    assert (i < length (values d)) as Hlt by (by eapply lookup_lt_Some).
    assert (j < length (columns d)) as Hjlt.
    { rewrite <- (Hwf row); [by eapply lookup_lt_Some|].
      apply list_elem_of_lookup. by exists i. }
    assert (cols !! j = Some (column_values (values d) j)) as Hcol.
    { unfold cols. rewrite list_lookup_fmap, lookup_seq_lt by exact Hjlt. reflexivity. }
    destruct (Forall2_lookup_l _ _ _ _ _ Hcols Hcol) as (col' & Hcol' & Hrel).
    assert (column_values (values d) j !! i = Some cell) as Hci.
    { unfold column_values. rewrite omap_total_lookup by (by apply Hsome).
      rewrite Hi. exact Hcell. }
    destruct (Forall2_lookup_l _ _ _ _ _ Hrel Hci) as (cell' & Hcell' & Hr).
    exists cell'. split; [|exact Hr].
    rewrite (Hrow i Hlt). simpl.
    rewrite omap_total_lookup by (by apply Hsome').
    rewrite Hcol'. exact Hcell'.
Qed.

(** X7: [translate_df] raises nothing and keeps the shape of the frame:
    same labels, same number of rows, and for a frame with one cell per
    label in every row, again one cell per label, each cell being what
    [translate_text] returned for the cell at the same place. *)
Theorem translate_df_keeps_shape (d : DataFrame) target (st : state svc) :
  exists d' st',
    translate_df d target st = (Py.Returned d', st')
    /\ columns d' = columns d
    /\ length (values d') = length (values d)
    /\ (wf d ->
        wf d'
        /\ forall i j cell,
             values d !! i ≫= (fun row => row !! j) = Some cell ->
             exists cell' (s1 s2 : state svc),
               values d' !! i ≫= (fun row => row !! j) = Some cell'
               /\ translate_text cell target s1 = (Py.Returned cell', s2)).
Proof.
  destruct (applymap_related (fun x => translate_text x target)
              (fun a b => exists s1 s2 : state svc,
                            translate_text a target s1 = (Py.Returned b, s2))
              (fun _ _ => True)) with (d := d) (st := st)
    as (d' & st' & Hrun & _ & Hc & Hl & Hwf); try done.
  { intros a s. destruct (translate_text_returns a target s) as (b & s' & H).
    exists b, s'. split; [exact H|]. split; [|exact I]. by exists s, s'. }
  exists d', st'. split; [exact Hrun|]. split; [exact Hc|]. split; [exact Hl|].
  intros H. destruct (Hwf H) as [Hwf' Hcells]. split; [exact Hwf'|].
  intros i j cell Hcell. destruct (Hcells i j cell Hcell) as (cell' & H1 & s1 & s2 & H2).
  by exists cell', s1, s2.
Qed.
End TranslatorMore.

Section TranslatorCost.
Context {svc : Services}.

Lemma no_provider_call_refl (s : state svc) : no_provider_call s s.
Proof. exists []. split; [by rewrite app_nil_r | constructor]. Qed.

Lemma no_provider_call_trans (s1 s2 s3 : state svc) :
  no_provider_call s1 s2 -> no_provider_call s2 s3 -> no_provider_call s1 s3.
Proof.
  intros (c1 & H1 & F1) (c2 & H2 & F2). exists (c1 ++ c2).
  split; [by rewrite H2, H1, app_assoc | by apply Forall_app].
Qed.

(** X8: when identification answers the target language for every text,
    [translate_df] calls the provider for no cell and returns the frame with
    every cell stripped of its surrounding whitespace: a padded cell does
    not come back as it was. *)
Theorem translate_df_same_language (d : DataFrame) (target : string) (st : state svc) :
  (forall text w, exists w', detect svc text w = (Py.Returned target, w')) ->
  wf d ->
  exists d' st',
    translate_df d target st = (Py.Returned d', st')
    /\ columns d' = columns d
    /\ values d' = map (map Py.strip) (values d)
    /\ no_provider_call st st'.
Proof.
  intros Hdet Hwf.
  destruct (applymap_related (fun x => translate_text x target)
              (fun a b => b = Py.strip a) no_provider_call
              no_provider_call_refl no_provider_call_trans) with (d := d) (st := st)
    as (d' & st' & Hrun & Hq & Hc & Hl & Hcells).
  { intros a [w log].
    destruct (decide (Py.strip a = "")) as [He|Hne].
    - exists "", (w, log). rewrite translate_text_empty by exact He.
      split; [reflexivity|]. split; [by rewrite He | apply no_provider_call_refl].
    - destruct (Hdet (Py.strip a) w) as [w' Hd].
      exists (Py.strip a), (w', log ++ [CallDetect (Py.strip a)]).
      rewrite (translate_text_detect_target a target w log w' Hne Hd).
      split; [reflexivity|]. split; [reflexivity|].
      exists [CallDetect (Py.strip a)]. split; [reflexivity | by repeat constructor]. }
  exists d', st'. split; [exact Hrun|]. split; [exact Hc|]. split; [|exact Hq].
  destruct (Hcells Hwf) as [Hwf' Hcell]. clear Hcells.
  unfold wf in Hwf, Hwf'. rewrite Forall_forall in Hwf, Hwf'. rewrite Hc in Hwf'.
  apply list_eq. intros i. rewrite list_lookup_fmap.
  destruct (values d !! i) as [row|] eqn:Hi; simpl.
  - destruct (values d' !! i) as [row'|] eqn:Hi'.
    + f_equal. apply list_eq. intros j. rewrite list_lookup_fmap.
      destruct (row !! j) as [cell|] eqn:Hj; simpl.
      * destruct (Hcell i j cell) as (cell' & H1 & ->); [by rewrite Hi|].
        rewrite Hi' in H1. exact H1.
      * apply lookup_ge_None in Hj. apply lookup_ge_None.
        rewrite (Hwf' row') by (apply list_elem_of_lookup; by exists i).
        rewrite <- (Hwf row); [exact Hj | apply list_elem_of_lookup; by exists i].
    + apply lookup_ge_None in Hi'. apply lookup_lt_Some in Hi. lia.
  - apply lookup_ge_None. apply lookup_ge_None in Hi. lia.
Qed.

Lemma mapM_counted {A B} (f : A -> M svc B) (c : A -> nat) :
  (forall a s, exists b s', f a s = (Py.Returned b, s')
                            /\ detect_calls s' = detect_calls s + c a) ->
  forall l st, exists bs st',
    mapM f l st = (Py.Returned bs, st')
    /\ detect_calls st' = detect_calls st + sum_list (map c l).
Proof.
  intros Hf. induction l as [|a l IH]; intros st.
  - exists [], st. split; [reflexivity | simpl; lia].
  - destruct (Hf a st) as (b & s1 & Hfa & H1).
    destruct (IH s1) as (bs & s2 & Hm & H2).
    exists (b :: bs), s2. cbn [mapM]. unfold bind. rewrite Hfa, Hm.
    split; [reflexivity | simpl; lia].
Qed.

Lemma translate_text_counted target a (s : state svc) :
  exists b s', translate_text a target s = (Py.Returned b, s')
               /\ detect_calls s' = detect_calls s + needs_detect a.
Proof.
  destruct s as [w log]. unfold detect_calls, needs_detect.
  destruct (translate_text_cases a target w log)
    as [[He H]|[[Hne (w1 & H)]|[Hne (t & w2 & H)]]]; rewrite H.
  - exists "", (w, log). rewrite He. simpl. split; [reflexivity | lia].
  - eexists _, _. split; [reflexivity|]. simpl.
    rewrite filter_app, length_app.
    destruct (Py.strip a); [congruence | reflexivity].
  - eexists _, _. split; [reflexivity|]. simpl.
    rewrite filter_app, length_app.
    destruct (Py.strip a); [congruence | reflexivity].
Qed.

Lemma sum_list_concat (ls : list (list nat)) :
  sum_list (concat ls) = sum_list (map sum_list ls).
Proof.
  induction ls as [|l ls IH]; [reflexivity|].
  simpl. rewrite sum_list_with_app, IH. reflexivity.
Qed.

(** Reading a frame column by column visits the cells that reading it row
    by row visits. *)
Lemma concat_columns_perm (rows : list (list string)) n :
  Forall (fun row => length row = n) rows ->
  concat (map (column_values rows) (seq 0 n)) ≡ₚ concat rows.
Proof.
  induction 1 as [|row rows Hlen _ IH].
  - simpl. induction (seq 0 n) as [|j js IHj]; [reflexivity | exact IHj].
  - simpl. rewrite <- IH. clear IH.
    assert (forall js, Forall (fun j => j < n) js ->
              concat (map (column_values (row :: rows)) js)
              ≡ₚ omap (fun j => row !! j) js ++ concat (map (column_values rows) js)) as H.
    { induction 1 as [|j js Hj _ IHj]; [reflexivity|].
      cbn [map concat omap list_omap]. unfold column_values at 1.
      cbn [omap list_omap].
      destruct (row !! j) as [cell|] eqn:Hc.
      - simpl. constructor. rewrite IHj.
        rewrite !app_assoc. apply Permutation_app_tail, Permutation_app_comm.
      - apply lookup_ge_None in Hc. lia. }
    rewrite H by (apply Forall_forall; intros j Hj; apply elem_of_seq in Hj; lia).
    apply Permutation_app_tail.
    replace (omap (fun j => row !! j) (seq 0 n)) with row; [reflexivity|].
    apply list_eq. intros j.
    rewrite omap_total_lookup.
    + destruct (decide (j < n)) as [Hj|Hj].
      * rewrite lookup_seq_lt by exact Hj. reflexivity.
      * rewrite lookup_seq_ge by lia. simpl. apply lookup_ge_None. lia.
    + apply Forall_forall. intros j' Hj'. apply elem_of_seq in Hj'.
      apply lookup_lt_is_Some. lia.
Qed.

(** X9: nothing is cached.  Whatever the services answer, [translate_df]
    on a frame with one cell per label in every row calls identification
    exactly once for each cell whose stripped text is not empty, repeated
    texts included, and never for the other cells. *)
Theorem translate_df_detect_calls (d : DataFrame) (target : string) (st : state svc) :
  wf d ->
  exists d' st',
    translate_df d target st = (Py.Returned d', st')
    /\ detect_calls st'
       = detect_calls st
         + length (filter (fun cell => Py.strip cell <> "") (concat (values d))).
Proof.
  intros Hwf. unfold translate_df, applymap, bind.
  destruct (mapM_counted (mapM (fun x => translate_text x target))
              (fun col => sum_list (map needs_detect col))
              (mapM_counted _ needs_detect (translate_text_counted target))
              (map (column_values (values d)) (seq 0 (length (columns d)))) st)
    as (cols' & st' & -> & Hcount).
  eexists _, st'. split; [reflexivity|]. rewrite Hcount. f_equal.
  rewrite <- (concat_columns_perm (values d) (length (columns d)) Hwf).
  generalize (map (column_values (values d)) (seq 0 (length (columns d)))).
  intros cols. induction cols as [|col cols IH]; [reflexivity|].
  cbn [map concat]. rewrite filter_app, length_app. cbn [sum_list_with id].
  rewrite IH. f_equal. clear.
  induction col as [|cell col IH]; [reflexivity|]. cbn [map sum_list_with id].
  unfold needs_detect at 1.
  destruct (Py.strip cell) eqn:E.
  - rewrite filter_cons_False by (rewrite E; intros H; by apply H). exact IH.
  - rewrite filter_cons_True by (rewrite E; discriminate). simpl. by rewrite IH.
Qed.
End TranslatorCost.

(** ** post_formatting: when it raises and what it changes *)

Lemma getitem_None wb name : getitem wb name = None <-> name ∉ map title wb.
Proof.
  induction wb as [|ws wb IH]; simpl.
  - split; [intros _; apply not_elem_of_nil | reflexivity].
  - rewrite not_elem_of_cons.
    destruct (String.eqb (title ws) name) eqn:E.
    + apply String.eqb_eq in E. split; [discriminate | intros [H _]; congruence].
    + apply String.eqb_neq in E.
      destruct (getitem wb name) as [[k ws']|]; simpl.
      * split; [discriminate|]. intros [_ H]. apply IH in H. discriminate.
      * split; [|reflexivity]. intros _. split; [congruence | by apply IH].
Qed.

Lemma getitem_Some wb name :
  name ∈ map title wb -> exists k ws, getitem wb name = Some (k, ws).
Proof.
  intros H. destruct (getitem wb name) as [[k ws]|] eqn:E; [eauto|].
  apply getitem_None in E. contradiction.
Qed.

Lemma insert_format_titles (wb : list Worksheet) k ws :
  wb !! k = Some ws -> map title (<[k := format_sheet ws]> wb) = map title wb.
Proof.
  intros H. rewrite list_fmap_insert, format_sheet_title.
  apply list_insert_id. by rewrite list_lookup_fmap, H.
Qed.

Lemma format_sheets_titles names : forall wb wb',
  format_sheets wb names = Py.Returned wb' -> map title wb' = map title wb.
Proof.
  induction names as [|m names IH]; intros wb wb' H; simpl in H.
  - by inversion H.
  - destruct (getitem wb m) as [[k ws]|] eqn:Hm; [|discriminate].
    destruct (getitem_lookup _ _ _ _ Hm) as [Hk _].
    rewrite (IH _ _ H). by apply insert_format_titles.
Qed.

Lemma format_sheets_returns names : forall wb,
  Forall (fun n => n ∈ map title wb) names ->
  exists wb', format_sheets wb names = Py.Returned wb'.
Proof.
  induction names as [|m names IH]; intros wb H; [by exists wb|].
  apply Forall_cons in H. destruct H as [Hm H].
  destruct (getitem_Some wb m Hm) as (k & ws & Hget).
  cbn [format_sheets]. rewrite Hget. apply IH.
  destruct (getitem_lookup _ _ _ _ Hget) as [Hk _].
  by rewrite insert_format_titles.
Qed.



Lemma targeted_spec wb names k :
  targeted wb names k = true
  <-> exists name ws, name ∈ names /\ getitem wb name = Some (k, ws).
Proof.
  unfold targeted. rewrite existsb_exists. split.
  - intros (name & Hin & H). apply list_elem_of_In in Hin.
    destruct (getitem wb name) as [[k' ws]|] eqn:E; [|discriminate].
    apply Nat.eqb_eq in H. subst k'. by exists name, ws.
  - intros (name & ws & Hin & H). exists name. split; [by apply list_elem_of_In|].
    rewrite H. apply Nat.eqb_refl.
Qed.

Lemma getitem_insert_format wb k2 ws2 name :
  wb !! k2 = Some ws2 ->
  getitem (<[k2 := format_sheet ws2]> wb) name
  = (fun p : nat * Worksheet =>
       (p.1, if decide (p.1 = k2) then format_sheet ws2 else p.2))
      <$> getitem wb name.
Proof. intros H. apply (getitem_insert wb k2 ws2); [exact H | reflexivity]. Qed.

Lemma targeted_insert wb names k2 ws2 k :
  wb !! k2 = Some ws2 ->
  targeted (<[k2 := format_sheet ws2]> wb) names k = targeted wb names k.
Proof.
  intros H. unfold targeted.
  induction names as [|name names IH]; [reflexivity|]. simpl. rewrite IH. f_equal.
  rewrite (getitem_insert_format _ _ _ _ H).
  destruct (getitem wb name) as [[k' ws']|]; reflexivity.
Qed.

Lemma targeted_cons wb m names k k2 ws2 :
  getitem wb m = Some (k2, ws2) ->
  targeted wb (m :: names) k = Nat.eqb k2 k || targeted wb names k.
Proof. intros H. unfold targeted. simpl. by rewrite H. Qed.

(** The workbook the loop leaves: the targeted sheets formatted, the others
    as they were. *)
Lemma format_sheets_result names : forall wb wb',
  format_sheets wb names = Py.Returned wb' ->
  length wb' = length wb
  /\ forall k ws, wb !! k = Some ws ->
       wb' !! k = Some (if targeted wb names k then format_sheet ws else ws).
Proof.
  induction names as [|m names IH]; intros wb wb' Hrun; simpl in Hrun.
  - inversion Hrun; subst. split; [reflexivity|]. intros k ws Hk. exact Hk.
  - destruct (getitem wb m) as [[k2 ws2]|] eqn:Hm; [|discriminate].
    destruct (getitem_lookup _ _ _ _ Hm) as [Hk2 Ht2].
    destruct (IH _ _ Hrun) as [Hlen Hsheets].
    split; [rewrite Hlen; apply length_insert|].
    intros k ws Hk. rewrite (targeted_cons wb m names k k2 ws2 Hm).
    destruct (decide (k = k2)) as [->|Hne].
    + assert (ws = ws2) as -> by congruence.
      rewrite Nat.eqb_refl. simpl.
      assert (<[k2 := format_sheet ws2]> wb !! k2 = Some (format_sheet ws2)) as Hk'.
      { apply list_lookup_insert_eq. by eapply lookup_lt_Some. }
      rewrite (Hsheets k2 _ Hk'), format_sheet_twice.
      by destruct (targeted _ names k2).
    + assert (<[k2 := format_sheet ws2]> wb !! k = Some ws) as Hk'.
      { etransitivity; [apply list_lookup_insert_ne; congruence | exact Hk]. }
      rewrite (Hsheets k _ Hk'), (targeted_insert wb names k2 ws2 k Hk2).
      replace (Nat.eqb k2 k) with false; [reflexivity|].
      symmetry. apply Nat.eqb_neq. congruence.
Qed.

Lemma format_sheet_content ws : sheet_content (format_sheet ws) = sheet_content ws.
Proof.
  rewrite format_sheet_eq. unfold sheet_content, wrap_rows. cbn [title rows].
  f_equal. rewrite map_map. apply map_ext. intros row. rewrite map_map. reflexivity.
Qed.

Lemma post_formatting_returned excel_io names wb :
  post_formatting excel_io names = (Py.Returned tt, wb) ->
  format_sheets excel_io names = Py.Returned wb.
Proof.
  unfold post_formatting. destruct (format_sheets excel_io names); intros H; by inversion H.
Qed.

(** X11: the pass is cosmetic.  When [post_formatting] returns, the saved
    workbook has the same sheets in the same order, with the same titles,
    and every cell keeps its value and its column letter. *)
Theorem post_formatting_cosmetic (excel_io : Workbook) (sheet_names : list string)
    (wb : Workbook) :
  post_formatting excel_io sheet_names = (Py.Returned tt, wb) ->
  map sheet_content wb = map sheet_content excel_io.
Proof.
  intros H. apply post_formatting_returned, format_sheets_result in H.
  destruct H as [Hlen Hsheets]. apply list_eq. intros k. rewrite !list_lookup_fmap.
  unfold Workbook in *.
  destruct (excel_io !! k) as [ws|] eqn:Hk.
  - rewrite (Hsheets k ws Hk). simpl. f_equal.
    destruct (targeted excel_io sheet_names k); [apply format_sheet_content | reflexivity].
  - apply lookup_ge_None in Hk. rewrite lookup_ge_None_2 by lia. reflexivity.
Qed.

Lemma getitem_targeted wb names name k ws :
  name ∈ names -> getitem wb name = Some (k, ws) -> targeted wb names k = true.
Proof. intros Hin Hget. apply targeted_spec. by exists name, ws. Qed.

Lemma column_letters_top top below :
  column_letters (top :: below) = map column_letter top.
Proof.
  unfold column_letters, ws_columns. cbn [rows].
  apply list_eq. intros j. rewrite !list_lookup_fmap, list_lookup_imap.
  by destruct (top !! j).
Qed.

Lemma column_letters_wrap rs : column_letters (wrap_rows rs) = column_letters rs.
Proof.
  destruct rs as [|top below]; [reflexivity|].
  unfold wrap_rows. cbn [map]. rewrite !column_letters_top, map_map. reflexivity.
Qed.

(** X12: when [post_formatting] returns, the sheet [wb[name]] of each
    listed name is at its place with every cell aligned by
    [Alignment(wrap_text=True)], and every letter of a cell of its first
    row has a column dimension of width 35 that keeps the hidden flag the
    dimension had (or the default one). *)
Theorem post_formatting_formats (excel_io : Workbook) (sheet_names : list string)
    (wb : Workbook) (name : string) (k : nat) (ws : Worksheet) :
  post_formatting excel_io sheet_names = (Py.Returned tt, wb) ->
  name ∈ sheet_names ->
  getitem excel_io name = Some (k, ws) ->
  exists ws',
    wb !! k = Some ws' /\ getitem wb name = Some (k, ws')
    /\ Forall (Forall (fun c => alignment c = Alignment_wrap)) (rows ws')
    /\ forall top below c,
         rows ws = top :: below -> c ∈ top ->
         column_dimensions ws' !! column_letter c
         = Some {| width := 35;
                   hidden := hidden (default default_dimension
                                       (column_dimensions ws !! column_letter c)) |}.
Proof.
  intros Hrun Hin Hget. apply post_formatting_returned in Hrun.
  destruct (getitem_lookup _ _ _ _ Hget) as [Hk Ht].
  destruct (format_sheets_result _ _ _ Hrun) as [_ Hsheets].
  pose proof (Hsheets k ws Hk) as Hk'.
  rewrite (getitem_targeted _ _ _ _ _ Hin Hget) in Hk'.
  exists (format_sheet ws). split; [exact Hk'|]. split.
  - destruct (format_sheets_formats _ _ _ Hrun name Hin) as (k' & ws' & Hg & _).
    destruct (getitem_lookup _ _ _ _ Hg) as [Hk'' _].
    assert (map title wb = map title excel_io) as Htitles
      by (by eapply format_sheets_titles).
    assert (k' = k) as ->.
    { clear -Hg Hget Htitles. revert wb k k' Hg Hget Htitles.
      induction excel_io as [|ws0 wb0 IH]; intros wb k k' Hg Hget Htitles; [discriminate|].
      destruct wb as [|ws1 wb]; [discriminate|].
      simpl in Htitles. inversion Htitles as [[Ht0 Htl]].
      simpl in Hg, Hget. rewrite Ht0 in Hg.
      destruct (String.eqb (title ws0) name); [congruence|].
      destruct (getitem wb name) as [[a wa]|] eqn:Ea; [|discriminate].
      destruct (getitem wb0 name) as [[b wb']|] eqn:Eb; [|discriminate].
      simpl in Hg, Hget. inversion Hg; inversion Hget; subst.
      f_equal. eapply IH; eauto. }
    congruence.
  - rewrite format_sheet_eq. cbn [rows column_dimensions]. split.
    + unfold wrap_rows. apply Forall_fmap, Forall_forall. intros row _.
      apply Forall_fmap, Forall_forall. intros c _. reflexivity.
    + intros top below c Hrows Hc.
      rewrite set_widths_lookup, column_letters_wrap, Hrows, column_letters_top.
      rewrite decide_True; [reflexivity|].
      apply list_elem_of_fmap. by exists c.
Qed.

(** X13: what the pass leaves alone.  A sheet whose title is not listed is
    saved as it was; in a listed sheet, the column dimension of a letter
    that no cell of the first row carries is as it was. *)
Theorem post_formatting_leaves_rest (excel_io : Workbook) (sheet_names : list string)
    (wb : Workbook) :
  post_formatting excel_io sheet_names = (Py.Returned tt, wb) ->
  (forall k ws, excel_io !! k = Some ws -> title ws ∉ sheet_names -> wb !! k = Some ws)
  /\ (forall k ws ws' letter,
        excel_io !! k = Some ws -> wb !! k = Some ws' ->
        letter ∉ map column_letter (default [] (head (rows ws))) ->
        column_dimensions ws' !! letter = column_dimensions ws !! letter).
Proof.
  intros Hrun. apply post_formatting_returned in Hrun.
  destruct (format_sheets_result _ _ _ Hrun) as [_ Hsheets]. split.
  - intros k ws Hk Hnot. rewrite (Hsheets k ws Hk).
    destruct (targeted excel_io sheet_names k) eqn:E; [|reflexivity].
    apply targeted_spec in E. destruct E as (name & ws0 & Hin & Hget).
    destruct (getitem_lookup _ _ _ _ Hget) as [Hk0 Ht].
    assert (ws0 = ws) as -> by congruence. congruence.
  - intros k ws ws' letter Hk Hk' Hl. rewrite (Hsheets k ws Hk) in Hk'.
    destruct (targeted excel_io sheet_names k); inversion Hk'; [|reflexivity].
    rewrite format_sheet_eq. cbn [column_dimensions].
    rewrite set_widths_lookup, column_letters_wrap.
    rewrite decide_False; [reflexivity|].
    destruct (rows ws) as [|top below]; [apply not_elem_of_nil|].
    rewrite column_letters_top. exact Hl.
Qed.

Lemma format_sheets_listed names : forall wb wb',
  format_sheets wb names = Py.Returned wb' -> Forall (fun n => n ∈ map title wb) names.
Proof.
  induction names as [|m names IH]; intros wb wb' H; [constructor|].
  simpl in H. destruct (getitem wb m) as [[k ws]|] eqn:Hm; [|discriminate].
  destruct (getitem_lookup _ _ _ _ Hm) as [Hk Ht]. constructor.
  - apply list_elem_of_fmap. exists ws. split; [by symmetry|].
    apply list_elem_of_lookup. by exists k.
  - specialize (IH _ _ H). by rewrite insert_format_titles in IH.
Qed.

(** X14: only the set of listed names matters.  When [post_formatting]
    returns for one list of names, it returns with the same saved workbook
    for any list with the same elements, whatever their order and however
    often a name is repeated. *)
Theorem post_formatting_names_as_set (excel_io : Workbook) (names1 names2 : list string)
    (wb : Workbook) :
  post_formatting excel_io names1 = (Py.Returned tt, wb) ->
  (forall n, n ∈ names1 <-> n ∈ names2) ->
  post_formatting excel_io names2 = (Py.Returned tt, wb).
Proof.
  intros Hrun Hsame. apply post_formatting_returned in Hrun.
  pose proof (format_sheets_listed _ _ _ Hrun) as Hlisted.
  destruct (format_sheets_returns names2 excel_io) as [wb2 Hrun2].
  { rewrite Forall_forall in *. intros n Hn. apply Hlisted, Hsame, Hn. }
  unfold post_formatting. rewrite Hrun2. f_equal.
  destruct (format_sheets_result _ _ _ Hrun) as [Hlen1 H1].
  destruct (format_sheets_result _ _ _ Hrun2) as [Hlen2 H2].
  apply list_eq. intros k. unfold Workbook in *.
  destruct (excel_io !! k) as [ws|] eqn:Hk.
  - rewrite (H1 k ws Hk), (H2 k ws Hk).
    replace (targeted excel_io names2 k) with (targeted excel_io names1 k); [reflexivity|].
    apply eq_true_iff_eq. rewrite !targeted_spec.
    split; intros (n & ws0 & Hin & Hget); exists n, ws0; (split; [by apply Hsame | exact Hget]).
  - apply lookup_ge_None in Hk. rewrite !lookup_ge_None_2 by lia. reflexivity.
Qed.

(** ** The processing loop: purity without translation, names, hand-over *)

Section LoopMore.
Context {svc : Services}.

Lemma astype_str_id d : astype_str d = d.
Proof.
  apply DataFrame_eq; [reflexivity|]. unfold astype_str. cbn [values].
  rewrite <- (map_id (values d)) at 2. apply map_ext. intros row.
  unfold Py.str. apply map_id.
Qed.

Lemma foldM_process_table_untranslated lang its : forall writer all_dfs (st : state svc),
  foldM (process_table false lang) (writer, all_dfs) its st
  = (Py.Returned
       (writer ++ map (fun it => (written_name it, expanded_frame it.2))
                      (filter nonempty_table its),
        all_dfs ++ map written_name (filter nonempty_table its)), st).
Proof.
  induction its as [|[i t] its IH]; intros writer all_dfs st.
  - simpl. unfold ret. by rewrite !app_nil_r.
  - cbn [foldM]. unfold bind.
    destruct (Pandas.empty (df t)) eqn:E.
    + rewrite process_table_empty by exact E. cbn beta iota.
      rewrite filter_cons_False by (unfold nonempty_table; simpl; rewrite E; simpl; auto).
      apply IH.
    + unfold process_table at 1. rewrite E. unfold bind, ret. cbn beta iota zeta.
      rewrite astype_str_id.
      rewrite filter_cons_True by (unfold nonempty_table; simpl; rewrite E; simpl; auto).
      etransitivity; [apply IH|]. unfold format_excel, to_excel, written_name, expanded_frame.
      simpl. by rewrite <- !app_assoc.
Qed.

(** X15: with translation disabled the loop calls no service and leaves
    the world and the call log as they were; it writes, for each table that
    is not empty, in order, the row-expanded frame of the table with its
    labels turned into stripped strings, and nothing else. *)
Theorem process_tables_untranslated lang (tables : list Table) (st : state svc) :
  process_tables false lang tables st
  = (Py.Returned
       (map (fun it : nat * Table =>
               (Py.slice_to 31 (sheet_name it.2 it.1),
                split_merged_rows
                  (set_columns
                     (map (fun col => Py.LStr (Py.strip (Py.str_label col)))
                          (columns (df it.2)))
                     (df it.2))))
            (filter (fun it : nat * Table => Pandas.empty (df it.2) = false)
                    (enumerate tables)),
        map (fun it : nat * Table => Py.slice_to 31 (sheet_name it.2 it.1))
            (filter (fun it : nat * Table => Pandas.empty (df it.2) = false)
                    (enumerate tables))),
     st).
Proof.
  unfold process_tables, process_enumerated.
  rewrite foldM_process_table_untranslated. simpl.
  assert (filter nonempty_table (enumerate tables)
          = filter (fun it : nat * Table => Pandas.empty (df it.2) = false)
                   (enumerate tables)) as ->; [|reflexivity].
  apply list_filter_iff. intros [i t]. unfold nonempty_table. simpl.
  destruct (Pandas.empty (df t)); simpl; split; (done || congruence).
Qed.

(** X16: the names handed to [post_formatting] are the names the sheets
    were written under, so on a workbook that holds a sheet for every
    written name [post_formatting] finds each listed sheet and returns. *)
Theorem post_formatting_after_loop enable_translation lang (tables : list Table)
    (st st' : state svc) (writer : ExcelWriter) (all_dfs : list string) (wb : Workbook) :
  process_tables enable_translation lang tables st = (Py.Returned (writer, all_dfs), st') ->
  (forall name, name ∈ written_names writer -> name ∈ map title wb) ->
  exists wb', post_formatting wb all_dfs = (Py.Returned tt, wb').
Proof.
  intros Hrun Hwb.
  destruct (process_tables_names enable_translation lang tables st)
    as (writer0 & st0 & Hrun0 & Hn).
  rewrite Hrun in Hrun0. inversion Hrun0; subst writer0 all_dfs st0.
  destruct (format_sheets_returns (map written_name (filter nonempty_table (enumerate tables))) wb)
    as [wb' Hwb'].
  { apply Forall_forall. intros n Hin. apply Hwb. by rewrite Hn. }
  exists wb'. unfold post_formatting. by rewrite Hwb'.
Qed.
End LoopMore.

(** ** Sheet names: when they are unique *)

Lemma pretty_N_go_no_underscore x s :
  Py.contains underscore s = false -> Py.contains underscore (pretty_N_go x s) = false.
Proof.
  revert s. induction (N.lt_wf_0 x) as [x _ IH]; intros s Hs.
  destruct (N.eq_0_gt_0_cases x) as [->|Hpos].
  - by rewrite pretty_N_go_0.
  - rewrite pretty_N_go_step by done. apply IH; [by apply N.div_lt|].
    cbn [Py.contains]. rewrite Hs.
    unfold pretty_N_char. by repeat case_match.
Qed.

Lemma str_int_no_underscore z : Py.contains underscore (Py.str_int z) = false.
Proof.
  assert (forall n : N, Py.contains underscore (pretty n) = false) as HN.
  { intros n. unfold pretty, pretty_N. case_decide; [reflexivity|].
    by apply pretty_N_go_no_underscore. }
  unfold Py.str_int, pretty, pretty_Z. destruct z as [|p|p]; [reflexivity | apply HN |].
  cbn [String.append Py.contains]. apply HN.
Qed.

(** Two strings that agree after a first separator agree before it. *)
Lemma split_at_first sep a a' r r' :
  Py.contains sep a = false -> Py.contains sep a' = false ->
  a +:+ String sep r = a' +:+ String sep r' -> a = a' /\ r = r'.
Proof.
  revert a'. induction a as [|c a IH]; intros [|c' a'] Ha Ha' H; simpl in *.
  - by inversion H.
  - inversion H; subst. by rewrite Ascii.eqb_refl in Ha'.
  - inversion H; subst. by rewrite Ascii.eqb_refl in Ha.
  - inversion H; subst.
    destruct (Ascii.eqb c' sep); [discriminate|].
    destruct (IH a' Ha Ha' H2) as [-> ->]. done.
Qed.

Lemma append_inj_l s a b : s +:+ a = s +:+ b -> a = b.
Proof. induction s as [|c s IH]; simpl; intros H; [exact H | inversion H; auto]. Qed.

Lemma sheet_name_inj t i t' i' :
  sheet_name t i = sheet_name t' i' -> page t = page t' /\ i = i'.
Proof.
  unfold sheet_name. intros H.
  assert (Py.str_int (page t) +:+ String underscore ("Table_" +:+ Py.str_int (Z.of_nat i + 1))
          = Py.str_int (page t') +:+ String underscore ("Table_" +:+ Py.str_int (Z.of_nat i' + 1)))
    as H'.
  { simpl in H. by inversion H. }
  apply split_at_first in H'; try apply str_int_no_underscore.
  destruct H' as [Hp Hn]. unfold Py.str_int in *. split.
  - by apply (inj pretty) in Hp.
  - apply append_inj_l, (inj pretty) in Hn. lia.
Qed.

Lemma enumerate_NoDup {A} (l : list A) : NoDup (enumerate l).
Proof.
  apply NoDup_alt. intros i j [k a] Hi Hj. unfold enumerate in *.
  rewrite list_lookup_imap in Hi, Hj.
  destruct (l !! i); destruct (l !! j); simpl in *; congruence.
Qed.

Section Names.
Context {svc : Services}.

(** X17: sheet names do not collide unless truncation makes them.  When
    the full name [Page_<page>_Table_<index>] of every table has at most 31
    characters, the names of the written sheets are pairwise distinct. *)
Theorem sheet_names_distinct enable_translation lang (tables : list Table)
    (st st' : state svc) (writer : ExcelWriter) (all_dfs : list string) :
  (forall i t, tables !! i = Some t -> String.length (sheet_name t i) <= 31) ->
  process_tables enable_translation lang tables st = (Py.Returned (writer, all_dfs), st') ->
  NoDup (written_names writer) /\ NoDup all_dfs.
Proof.
  intros Hshort Hrun.
  destruct (process_tables_names enable_translation lang tables st)
    as (writer0 & st0 & Hrun0 & Hn).
  rewrite Hrun in Hrun0. inversion Hrun0; subst writer0 all_dfs st0.
  rewrite Hn.
  assert (NoDup (map written_name (filter nonempty_table (enumerate tables)))) as Hnd;
    [|by split].
  apply NoDup_fmap_2_strong; [|apply NoDup_filter, enumerate_NoDup].
  intros [i t] [i' t'] Hin Hin' Heq.
  apply list_elem_of_filter in Hin, Hin'.
  destruct Hin as [_ Hin], Hin' as [_ Hin'].
  apply enumerate_elem in Hin, Hin'.
  unfold written_name in Heq. cbn [fst snd] in Heq.
  rewrite !slice_to_short in Heq by (by apply Hshort).
  apply sheet_name_inj in Heq. destruct Heq as [_ ->]. congruence.
Qed.
End Names.

(** ** Language map *)

Import App.

Lemma dict_get_elem (d : dict) k v : dict_get d k = Some v -> (k, v) ∈ d.
Proof.
  induction d as [|[k' v'] d IH]; simpl; [discriminate|].
  destruct (String.eqb k' k) eqn:E.
  - apply String.eqb_eq in E. intros H. inversion H; subst. apply elem_of_cons. by left.
  - intros H. apply elem_of_cons. right. by apply IH.
Qed.

Lemma index_Some x l : x ∈ l <-> is_Some (index x l).
Proof.
  induction l as [|y l IH]; simpl.
  - split; [intros H; by apply not_elem_of_nil in H | intros [? H]; discriminate].
  - rewrite elem_of_cons. destruct (String.eqb y x) eqn:E.
    + apply String.eqb_eq in E. split; [by eexists | by left].
    + apply String.eqb_neq in E. rewrite fmap_is_Some, <- IH.
      split; [intros [->|H]; [congruence | exact H] | by right].
Qed.

Lemma codes_to_names_and_back :
  Forall (fun kv : string * string => dict_get lang_name_to_code kv.2 = Some kv.1)
         full_language_names.
Proof. apply (bool_decide_unpack _). vm_compute. exact I. Qed.

Lemma names_to_codes_and_back :
  Forall (fun kv : string * string => dict_get full_language_names kv.2 = Some kv.1)
         lang_name_to_code.
Proof. apply (bool_decide_unpack _). vm_compute. exact I. Qed.

Lemma options_have_codes :
  Forall (fun name => is_Some (dict_get lang_name_to_code name)) sorted_lang_names.
Proof. apply (bool_decide_unpack _). vm_compute. exact I. Qed.

Lemma coded_names_are_options :
  Forall (fun kv : string * string => kv.1 ∈ sorted_lang_names) lang_name_to_code.
Proof. apply (bool_decide_unpack _). vm_compute. exact I. Qed.

Lemma name_code_round_trip code name :
  dict_get full_language_names code = Some name
  <-> dict_get lang_name_to_code name = Some code.
Proof.
  split; intros H; apply dict_get_elem in H.
  - pose proof codes_to_names_and_back as F. rewrite Forall_forall in F.
    exact (F _ H).
  - pose proof names_to_codes_and_back as F. rewrite Forall_forall in F.
    exact (F _ H).
Qed.

(** X18: the two maps are inverse to each other: a code has a full name
    exactly when that name has this code; the names offered for selection
    are exactly the names that have a code, in ascending order and without
    repetition, and "English", the default choice, is one of them. *)
Theorem language_maps_inverse :
  (forall code name,
     dict_get full_language_names code = Some name
     <-> dict_get lang_name_to_code name = Some code)
  /\ (forall name, name ∈ sorted_lang_names <-> is_Some (dict_get lang_name_to_code name))
  /\ StronglySorted (fun a b => String.ltb a b = true) sorted_lang_names
  /\ is_Some (index "English" sorted_lang_names).
Proof.
  split; [exact name_code_round_trip|]. split; [|split].
  - intros name. split.
    + pose proof options_have_codes as F. rewrite Forall_forall in F. apply F.
    + intros [code H]. apply dict_get_elem in H.
      pose proof coded_names_are_options as F. rewrite Forall_forall in F.
      exact (F _ H).
  - apply (bool_decide_unpack _). vm_compute. exact I.
  - vm_compute. by eexists.
Qed.

(** ** Session flow *)

Lemma index_english : exists i, index "English" sorted_lang_names = Some i.
Proof. vm_compute. by eexists. Qed.

Lemma note_upload_same w s f :
  uploaded_file w = Some f -> last_filename s = Some f -> note_upload w s = s.
Proof.
  intros Hw Hs. unfold note_upload. rewrite Hw.
  by rewrite bool_decide_eq_true_2.
Qed.

Lemma note_upload_flags w s f :
  uploaded_file w = Some f ->
  last_filename (note_upload w s) = Some f
  /\ confirmed_lang_code (note_upload w s) = confirmed_lang_code s
  /\ confirmed_lang_name (note_upload w s) = confirmed_lang_name s
  /\ (confirmed (note_upload w s) = true ->
      confirmed s = true /\ last_filename s = Some f)
  /\ (run_without_translation (note_upload w s) = true ->
      run_without_translation s = true /\ last_filename s = Some f).
Proof.
  intros Hw. unfold note_upload. rewrite Hw.
  case_bool_decide as E; simpl; repeat split; auto; discriminate.
Qed.

Lemma process_or_warn_result pipeline name enable shown s evs s' :
  process_or_warn pipeline name enable shown s = (Py.Returned evs, s') ->
  (evs = shown ++ [Processed name enable (confirmed_lang_code s)]
   /\ (if enable then confirmed s = true else run_without_translation s = true)
   /\ (exists u, pipeline name enable (confirmed_lang_code s) = Py.Returned u)
   /\ confirmed s' = false /\ run_without_translation s' = false
   /\ confirmed_lang_code s' = confirmed_lang_code s
   /\ confirmed_lang_name s' = confirmed_lang_name s)
  \/ (evs = shown ++ [Warned] /\ enable = true /\ confirmed s = false /\ s' = s)
  \/ (evs = shown /\ enable = false /\ run_without_translation s = false /\ s' = s).
Proof.
  unfold process_or_warn. intros H.
  destruct ((enable && confirmed s) || (negb enable && run_without_translation s)) eqn:Hgo.
  - destruct (pipeline name enable (confirmed_lang_code s)) as [u|e] eqn:Ep; [|discriminate].
    inversion H; subst. left. simpl. split; [reflexivity|]. split.
    + destruct enable, (confirmed s), (run_without_translation s); simpl in Hgo;
        congruence.
    + split; [by exists u | auto].
  - destruct enable; simpl in *.
    + rewrite orb_false_r in Hgo. rewrite Hgo in H. simpl in H.
      inversion H; subst. right. left. auto.
    + inversion H; subst. right. right. auto.
Qed.

(** X19: a run processes the uploaded file only on a go-ahead for this
    file: with the translation box ticked, the confirm button was clicked in
    this run or a confirmation is pending for a file of the same name; with
    the box unticked, likewise for the extract button.  A flag left by a
    file of another name never starts a processing. *)
Theorem processing_needs_go_ahead pipeline (w : Widgets) (s s' : Session)
    (evs : list event) (f : string) (e : bool) (lang : string) :
  script_run pipeline w s = (Py.Returned evs, s') ->
  Processed f e lang ∈ evs ->
  uploaded_file w = Some f
  /\ e = translate_checkbox w
  /\ (if e
      then confirm_button w = true \/ (confirmed s = true /\ last_filename s = Some f)
      else extract_button w = true
           \/ (run_without_translation s = true /\ last_filename s = Some f)).
Proof.
  unfold script_run. intros Hrun Hin.
  destruct (uploaded_file w) as [name|] eqn:Hw;
    [|inversion Hrun; subst; by apply not_elem_of_nil in Hin].
  destruct (note_upload_flags w s name Hw) as (_ & _ & _ & Hc & Hr).
  assert (forall shown s0,
            (forall f' e' l', Processed f' e' l' ∉ shown) ->
            process_or_warn pipeline name (translate_checkbox w) shown s0
            = (Py.Returned evs, s') ->
            Some name = Some f /\ e = translate_checkbox w
            /\ (if e then confirmed s0 = true else run_without_translation s0 = true))
    as Hstep.
  { intros shown s0 Hshown H.
    apply process_or_warn_result in H.
    destruct H as [(-> & Hflag & _)|[(-> & _)|(-> & _)]].
    - apply elem_of_app in Hin. destruct Hin as [Hin|Hin]; [by apply Hshown in Hin|].
      apply list_elem_of_singleton in Hin. inversion Hin; subst. auto.
    - apply elem_of_app in Hin. destruct Hin as [Hin|Hin]; [by apply Hshown in Hin|].
      apply list_elem_of_singleton in Hin. discriminate.
    - by apply Hshown in Hin. }
  destruct (translate_checkbox w) eqn:Hbox.
  - destruct (index "English" sorted_lang_names); [|discriminate].
    destruct (confirm_button w) eqn:Hbtn.
    + destruct (dict_get lang_name_to_code (selected_lang w)); [|discriminate].
      apply Hstep in Hrun.
      * destruct Hrun as (Hf & -> & _). split; [exact Hf|]. split; [reflexivity|]. by left.
      * intros f' e' l' H. apply list_elem_of_singleton in H. discriminate.
    + apply Hstep in Hrun; [|intros f' e' l'; apply not_elem_of_nil].
      destruct Hrun as (Hf & -> & Hflag). split; [exact Hf|]. split; [reflexivity|].
      right. inversion Hf; subst. by apply Hc.
  - assert (forall s0, (run_without_translation s0 = true ->
                        extract_button w = true
                        \/ run_without_translation (note_upload w s) = true) ->
              process_or_warn pipeline name false [] s0 = (Py.Returned evs, s') ->
              Some name = Some f /\ e = false
              /\ (extract_button w = true
                  \/ (run_without_translation s = true /\ last_filename s = Some f)))
      as Hfin.
    { intros s0 Hs0 H. apply Hstep in H; [|intros f' e' l'; apply not_elem_of_nil].
      destruct H as (Hf & -> & Hflag). split; [exact Hf|]. split; [reflexivity|].
      destruct (Hs0 Hflag) as [Hb|Hpend]; [by left|].
      right. inversion Hf; subst. by apply Hr. }
    destruct (run_without_translation (note_upload w s)) eqn:Hrw; simpl in Hrun.
    + apply Hfin in Hrun; [|intros _; by right].
      destruct Hrun as (Hf & -> & H). auto.
    + destruct (extract_button w) eqn:Hbtn.
      * apply Hfin in Hrun; [|intros _; by left].
        destruct Hrun as (Hf & -> & H). auto.
      * apply Hfin in Hrun; [|rewrite Hrw; discriminate].
        destruct Hrun as (Hf & -> & H). auto.
Qed.

(** X20: a go-ahead is used up by the run it is given in.  From a session
    without pending flag, a run that returns leaves no pending flag, and it
    processes exactly when a file is there and the button that goes with the
    state of the translation box was clicked in this run. *)
Theorem idle_session_stays_idle pipeline (w : Widgets) (s s' : Session)
    (evs : list event) :
  idle s ->
  script_run pipeline w s = (Py.Returned evs, s') ->
  idle s'
  /\ ((exists f e lang, Processed f e lang ∈ evs)
      <-> is_Some (uploaded_file w)
          /\ (if translate_checkbox w then confirm_button w = true
              else extract_button w = true)).
Proof.
  intros [Hc Hr] Hrun. unfold script_run in Hrun.
  assert (idle (note_upload w s)) as [Hc1 Hr1].
  { unfold idle, note_upload. destruct (uploaded_file w); [|done].
    case_bool_decide; simpl; done. }
  destruct (uploaded_file w) as [name|] eqn:Hw.
  2:{ inversion Hrun; subst. split; [done|]. split.
      - intros (f & e & l & H). by apply not_elem_of_nil in H.
      - intros [[? H] _]. discriminate. }
  assert (forall f e l, Processed f e l ∉ @nil event) as Hnil
    by (intros; apply not_elem_of_nil).
  destruct (translate_checkbox w) eqn:Hbox.
  - destruct (index "English" sorted_lang_names); [|discriminate].
    destruct (confirm_button w) eqn:Hbtn.
    + destruct (dict_get lang_name_to_code (selected_lang w)) as [code|]; [|discriminate].
      apply process_or_warn_result in Hrun. simpl in Hrun.
      destruct Hrun as [(-> & _ & _ & Hc' & Hr' & _)|[(_ & _ & H & _)|(_ & H & _)]];
        try discriminate.
      split; [done|]. split; [by eauto|]. intros _.
      exists name, true, code. set_solver.
    + apply process_or_warn_result in Hrun.
      destruct Hrun as [(_ & H & _)|[(-> & _ & _ & ->)|(_ & H & _)]]; try congruence.
      split; [done|]. split; [|intros [_ H]; discriminate].
      intros (f & e & l & H). apply elem_of_app in H.
      destruct H as [H|H]; [by apply Hnil in H|].
      apply list_elem_of_singleton in H. discriminate.
  - rewrite Hr1 in Hrun. simpl in Hrun.
    destruct (extract_button w) eqn:Hbtn.
    + apply process_or_warn_result in Hrun. simpl in Hrun.
      destruct Hrun as [(-> & _ & _ & Hc' & Hr' & _)|[(_ & H & _)|(_ & _ & H & _)]];
        try discriminate.
      split; [done|]. split; [by eauto|]. intros _.
      eexists name, false, _. apply list_elem_of_singleton. reflexivity.
    + apply process_or_warn_result in Hrun.
      destruct Hrun as [(_ & H & _)|[(_ & H & _)|(-> & _ & _ & ->)]]; try congruence.
      split; [done|]. split; [|intros [_ H]; discriminate].
      intros (f & e & l & H). by apply Hnil in H.
Qed.

Lemma language_known_note_upload w s : language_known s -> language_known (note_upload w s).
Proof.
  unfold language_known, note_upload. destruct (uploaded_file w); [|done].
  case_bool_decide; done.
Qed.

Lemma process_or_warn_language pipeline name enable shown s :
  language_known s -> language_known (process_or_warn pipeline name enable shown s).2.
Proof.
  unfold process_or_warn. intros H.
  destruct ((enable && confirmed s) || (negb enable && run_without_translation s)).
  - destruct (pipeline _ _ _); exact H.
  - destruct (enable && negb (confirmed s)); exact H.
Qed.

(** X21: the confirmed language always is an entry of the language map.
    This holds in the first session and after every run, returned or
    raised, whatever the widgets gave; so a processing with translation
    always gets a code that has a full name. *)
Theorem confirmed_language_known :
  language_known initial_session
  /\ (forall pipeline w s,
        language_known s ->
        language_known (script_run pipeline w s).2
        /\ forall evs f lang,
             (script_run pipeline w s).1 = Py.Returned evs ->
             Processed f true lang ∈ evs ->
             is_Some (dict_get full_language_names lang)).
Proof.
  split; [split; reflexivity|]. intros pipeline w s Hs.
  pose proof (language_known_note_upload w s Hs) as Hs1.
  assert (forall name enable shown s0,
            language_known s0 ->
            (forall f l, Processed f true l ∉ shown) ->
            forall evs f lang,
              (process_or_warn pipeline name enable shown s0).1 = Py.Returned evs ->
              Processed f true lang ∈ evs ->
              is_Some (dict_get full_language_names lang)) as Hcode.
  { intros name enable shown s0 [_ Hk] Hshown evs f lang Hrun Hin.
    destruct (process_or_warn pipeline name enable shown s0) as [r s1] eqn:E.
    simpl in Hrun. subst r. apply process_or_warn_result in E.
    destruct E as [(-> & _)|[(-> & _)|(-> & _)]].
    - apply elem_of_app in Hin. destruct Hin as [Hin|Hin]; [by apply Hshown in Hin|].
      apply list_elem_of_singleton in Hin. inversion Hin; subst. by eexists.
    - apply elem_of_app in Hin. destruct Hin as [Hin|Hin]; [by apply Hshown in Hin|].
      apply list_elem_of_singleton in Hin. discriminate.
    - by apply Hshown in Hin. }
  assert (forall f l, Processed f true l ∉ @nil event) as Hnil
    by (intros; apply not_elem_of_nil).
  unfold script_run.
  destruct (uploaded_file w) as [name|].
  2:{ split; [exact Hs1|]. intros evs f lang H Hin. inversion H; subst.
      by apply not_elem_of_nil in Hin. }
  destruct (translate_checkbox w).
  - destruct (index "English" sorted_lang_names); [|split; [exact Hs1 | discriminate]].
    destruct (confirm_button w).
    + destruct (dict_get lang_name_to_code (selected_lang w)) as [code|] eqn:Hsel;
        [|split; [exact Hs1 | discriminate]].
      assert (language_known
                {| last_filename := last_filename (note_upload w s); confirmed := true;
                   processing_complete := false; confirmed_lang_code := code;
                   confirmed_lang_name := selected_lang w;
                   run_without_translation :=
                     run_without_translation (note_upload w s) |}) as Hs2.
      { split; simpl; [exact Hsel | by apply name_code_round_trip]. }
      split; [by apply process_or_warn_language|].
      apply Hcode; [exact Hs2|].
      intros f l H. apply list_elem_of_singleton in H. discriminate.
    + split; [by apply process_or_warn_language | by apply Hcode].
  - destruct (negb (run_without_translation (note_upload w s)));
      [destruct (extract_button w)|];
      (split; [by apply process_or_warn_language | by apply Hcode]).
Qed.

(** X22: a run raises only if the processing does.  When the selected
    language is one of the offered names and the processing returns, the run
    returns: neither the lookup of the default choice nor the lookup of the
    selected name's code fails. *)
Theorem script_run_returns pipeline (w : Widgets) (s : Session) :
  selected_lang w ∈ sorted_lang_names ->
  (forall f e l, exists u, pipeline f e l = Py.Returned u) ->
  exists evs s', script_run pipeline w s = (Py.Returned evs, s').
Proof.
  intros Hsel Hpipe.
  assert (forall name enable shown s0, exists evs s',
            process_or_warn pipeline name enable shown s0 = (Py.Returned evs, s')) as Hp.
  { intros name enable shown s0. unfold process_or_warn.
    destruct ((enable && confirmed s0) || (negb enable && run_without_translation s0)).
    - destruct (Hpipe name enable (confirmed_lang_code s0)) as [u ->]. eauto.
    - destruct (enable && negb (confirmed s0)); eauto. }
  unfold script_run.
  destruct (uploaded_file w) as [name|]; [|eauto].
  destruct (translate_checkbox w).
  - destruct index_english as [i ->].
    destruct (confirm_button w); [|apply Hp].
    pose proof options_have_codes as F. rewrite Forall_forall in F.
    destruct (F _ Hsel) as [code ->]. apply Hp.
  - destruct (negb (run_without_translation (note_upload w s)));
      [destruct (extract_button w)|]; apply Hp.
Qed.

(** ** The processing loop: what the written frames are *)

Lemma split_merged_rows_wf d : wf d -> wf (split_merged_rows d).
Proof.
  unfold wf. rewrite !Forall_forall. intros Hwf out Hout.
  rewrite split_merged_rows_values in Hout.
  apply list_elem_of_In, in_concat in Hout. destruct Hout as (subs & Hsubs & Hout).
  apply list_elem_of_In, list_elem_of_fmap in Hsubs. destruct Hsubs as (row & -> & Hrow).
  apply list_elem_of_In in Hout.
  rewrite (sub_rows_length row out Hout). simpl. by apply Hwf.
Qed.

Global Instance has_cells_dec t : Decision (has_cells t).
Proof. unfold has_cells. apply _. Defined.




Section LoopFrames.
Context {svc : Services}.
Variable enable_translation : bool.
Variable lang : string.

Lemma process_table_frame writer all_dfs i t (st : state svc) :
  Pandas.empty (df t) = false ->
  exists d st',
    process_table enable_translation lang (writer, all_dfs) (i, t) st
    = (Py.Returned (writer ++ [(written_name (i, t), d)],
                    all_dfs ++ [written_name (i, t)]), st')
    /\ columns d = string_labels t
    /\ (wf (df t) -> wf d).
Proof.
  intros He. unfold process_table. rewrite He. unfold bind.
  set (d0 := astype_str (split_merged_rows (set_columns _ (df t)))).
  assert (columns d0 = string_labels t) as Hc0 by reflexivity.
  assert (wf (df t) -> wf d0) as Hwf0.
  { intros H. unfold d0. rewrite astype_str_id. apply split_merged_rows_wf.
    unfold wf, set_columns in *. cbn [columns values]. by rewrite length_map. }
  destruct enable_translation.
  - destruct (applymap_related (fun x => translate_text x lang)
                (fun _ _ => True) (fun _ _ : state svc => True)) with (d := d0) (st := st)
      as (d' & st' & Hrun & _ & Hc & _ & Hwf); try done.
    { intros a s. destruct (translate_text_returns a lang s) as (b & s' & H). eauto. }
    unfold translate_df. rewrite Hrun. exists d', st'.
    split; [reflexivity|]. split; [by rewrite Hc|].
    intros H. by apply Hwf, Hwf0.
  - exists d0, st. unfold ret. split; [reflexivity|]. split; [exact Hc0 | exact Hwf0].
Qed.

Lemma foldM_process_table_frames its : forall writer all_dfs (st : state svc),
  exists sheets st',
    foldM (process_table enable_translation lang) (writer, all_dfs) its st
    = (Py.Returned (writer ++ sheets,
                    all_dfs ++ map written_name (filter nonempty_table its)), st')
    /\ Forall2 (fun (it : nat * Table) (sheet : string * DataFrame) =>
                  sheet.1 = written_name it
                  /\ columns sheet.2 = string_labels it.2
                  /\ (wf (df it.2) -> wf sheet.2))
               (filter nonempty_table its) sheets.
Proof.
  induction its as [|[i t] its IH]; intros writer all_dfs st.
  - exists [], st. simpl. unfold ret. rewrite !app_nil_r. split; [reflexivity | constructor].
  - cbn [foldM]. unfold bind.
    destruct (Pandas.empty (df t)) eqn:E.
    + rewrite process_table_empty by exact E. cbn beta iota.
      destruct (IH writer all_dfs st) as (sheets & st' & Hrun & Hf).
      exists sheets, st'.
      rewrite filter_cons_False by (unfold nonempty_table; simpl; rewrite E; simpl; auto).
      split; [exact Hrun | exact Hf].
    + destruct (process_table_frame writer all_dfs i t st E) as (d & st1 & -> & Hc & Hwf).
      cbn beta iota.
      destruct (IH (writer ++ [(written_name (i, t), d)])
                   (all_dfs ++ [written_name (i, t)]) st1) as (sheets & st' & Hrun & Hf).
      exists ((written_name (i, t), d) :: sheets), st'.
      rewrite filter_cons_True by (unfold nonempty_table; simpl; rewrite E; simpl; auto).
      split.
      * etransitivity; [exact Hrun|]. simpl. by rewrite <- !app_assoc.
      * constructor; [|exact Hf]. simpl. auto.
Qed.


(** X24: every frame the loop writes comes from a table of the list and is
    written under the name of that table's position; its labels are the
    table's labels as stripped strings, and when every row of the table's
    frame has one cell per label, so has every row of the written frame,
    with or without translation. *)
Theorem written_frames_keep_columns (tables : list Table) (st st' : state svc)
    (writer : ExcelWriter) (all_dfs : list string) :
  process_tables enable_translation lang tables st = (Py.Returned (writer, all_dfs), st') ->
  Forall (fun sheet : string * DataFrame =>
            exists i t,
              tables !! i = Some t
              /\ sheet.1 = Py.slice_to 31 (sheet_name t i)
              /\ columns sheet.2
                 = map (fun col => Py.LStr (Py.strip (Py.str_label col))) (columns (df t))
              /\ (wf (df t) -> wf sheet.2))
         writer.
Proof.
  intros Hrun. unfold process_tables, process_enumerated in Hrun.
  destruct (foldM_process_table_frames (enumerate tables) [] [] st)
    as (sheets & st0 & Hrun0 & Hf).
  pose proof (eq_trans (eq_sym Hrun) Hrun0) as Heq.
  inversion Heq; subst writer all_dfs st0. simpl.
  apply Forall_forall. intros sheet Hin.
  apply list_elem_of_lookup_1 in Hin as [k Hk].
  destruct (Forall2_lookup_r _ _ _ _ _ Hf Hk) as ([i t] & Hit & Hname & Hc & Hwf).
  exists i, t. split; [|auto].
  apply enumerate_elem. eapply list_elem_of_filter, list_elem_of_lookup_2. exact Hit.
Qed.
End LoopFrames.

(** ** The further properties at concrete inputs *)

Import Samples.

(** X1 at the frame of the spec's example row. *)
Lemma split_merged_rows_no_line_break_witness :
  Py.contains Py.newline "B" = false /\ Py.split Py.newline "B" = ["B"].
Proof.
  apply (split_merged_rows_no_line_break (frame [example_row]) [""; "B"] "B").
  - apply elem_of_cons. right. apply elem_of_cons. by left.
  - apply elem_of_cons. right. apply elem_of_cons. by left.
Defined.

(** X3 at the two-line cell of the spec's example row. *)
Lemma sub_rows_lossless_witness :
  (fun sub : list string => sub !! 1) <$> take 2 (sub_rows example_row)
    = [Some "A"; Some "B"]
  /\ Py.join Py.newline ["A"; "B"] = "A" +:+ String Py.newline "B"
  /\ Forall (fun sub : list string => sub !! 1 = Some "")
            (drop 2 (sub_rows example_row)).
Proof.
  exact (sub_rows_lossless example_row 1 ("A" +:+ String Py.newline "B") eq_refl).
Defined.

(** X6 at a padded value: the provider is asked for ["bonjour"]. *)
Lemma translate_text_translates_witness :
  translate_text (svc := french) " bonjour " "en" (0, [])
  = (Py.Returned "hello",
     (2, [CallDetect "bonjour"; CallTranslate "auto" "en" "bonjour"])).
Proof.
  apply (translate_text_translates (svc := french) " bonjour " "en" 0 [] "fr" 1 "hello" 2);
    [discriminate | reflexivity | discriminate | reflexivity].
Defined.

(** X8 at a frame with a padded cell. *)
Lemma translate_df_same_language_witness :
  exists d' st',
    translate_df (svc := english) padded_frame "en" (0, []) = (Py.Returned d', st')
    /\ columns d' = columns padded_frame
    /\ values d' = [["a"; "b"]; ["b"; ""]]
    /\ no_provider_call (svc := english) (0, []) st'.
Proof.
  apply (translate_df_same_language (svc := english) padded_frame "en" (0, [])).
  - intros text w. by exists (S w).
  - repeat constructor.
Defined.

(** X9 at the same frame: three cells have text, ["b"] twice. *)
Lemma translate_df_detect_calls_witness :
  exists d' st',
    translate_df (svc := french) padded_frame "en" (0, []) = (Py.Returned d', st')
    /\ detect_calls st' = 0 + 3.
Proof.
  apply (translate_df_detect_calls (svc := french) padded_frame "en" (0, [])).
  repeat constructor.
Defined.

(** X11 at the sample workbook. *)
Lemma post_formatting_cosmetic_witness :
  map sheet_content (post_formatting workbook ["Page_1_Table_1"]).2
  = map sheet_content workbook.
Proof.
  exact (post_formatting_cosmetic workbook ["Page_1_Table_1"] _ eq_refl).
Defined.

(** X12 at the sample workbook: column B keeps its hidden flag. *)
Lemma post_formatting_formats_witness :
  exists ws',
    (post_formatting workbook ["Page_1_Table_1"]).2 !! 0 = Some ws'
    /\ getitem (post_formatting workbook ["Page_1_Table_1"]).2 "Page_1_Table_1"
       = Some (0, ws')
    /\ Forall (Forall (fun c => alignment c = Alignment_wrap)) (rows ws')
    /\ forall top below c,
         rows data_sheet = top :: below -> c ∈ top ->
         column_dimensions ws' !! column_letter c
         = Some {| width := 35;
                   hidden := hidden (default default_dimension
                                       (column_dimensions data_sheet !! column_letter c)) |}.
Proof.
  apply (post_formatting_formats workbook ["Page_1_Table_1"] _ "Page_1_Table_1" 0 data_sheet).
  - reflexivity.
  - apply elem_of_cons. by left.
  - reflexivity.
Defined.

(** X13 at the sample workbook: the sheet "Notes" is not listed. *)
Lemma post_formatting_leaves_rest_witness :
  (forall k ws, workbook !! k = Some ws -> title ws ∉ ["Page_1_Table_1"] ->
                (post_formatting workbook ["Page_1_Table_1"]).2 !! k = Some ws)
  /\ (forall k ws ws' letter,
        workbook !! k = Some ws ->
        (post_formatting workbook ["Page_1_Table_1"]).2 !! k = Some ws' ->
        letter ∉ map column_letter (default [] (head (rows ws))) ->
        column_dimensions ws' !! letter = column_dimensions ws !! letter).
Proof.
  exact (post_formatting_leaves_rest workbook ["Page_1_Table_1"] _ eq_refl).
Defined.

(** X14 at the sample workbook: a name listed twice, the other way round. *)
Lemma post_formatting_names_as_set_witness :
  post_formatting workbook ["Notes"; "Page_1_Table_1"; "Notes"]
  = (Py.Returned tt, (post_formatting workbook ["Page_1_Table_1"; "Notes"]).2).
Proof.
  apply (post_formatting_names_as_set workbook ["Page_1_Table_1"; "Notes"]).
  - reflexivity.
  - intros n. rewrite !elem_of_cons. pose proof (not_elem_of_nil n). tauto.
Defined.

(** X16 at a list with an empty table, on the sample workbook. *)
Lemma post_formatting_after_loop_witness :
  exists wb', post_formatting workbook ["Page_1_Table_1"] = (Py.Returned tt, wb').
Proof.
  apply (post_formatting_after_loop (svc := english) false "en"
           [merged_table; empty_table] (0, []) (0, [])
           [("Page_1_Table_1", merged_expanded)] ["Page_1_Table_1"] workbook).
  - vm_compute. reflexivity.
  - intros name H. apply list_elem_of_singleton in H. subst name.
    apply elem_of_cons. by left.
Defined.

(** X17 at a list of three tables on page 1. *)
Lemma sheet_names_distinct_witness :
  NoDup (written_names [("Page_1_Table_1", merged_expanded);
                        ("Page_1_Table_3", merged_expanded)])
  /\ NoDup ["Page_1_Table_1"; "Page_1_Table_3"].
Proof.
  apply (sheet_names_distinct (svc := english) false "en"
           [merged_table; empty_table; merged_table] (0, []) (0, [])).
  - intros [|[|[|i]]] t H; simpl in H; inversion H; subst;
      apply Nat.leb_le; vm_compute; reflexivity.
  - vm_compute. reflexivity.
Defined.

(** X19 at a first run in which Spanish is confirmed. *)
Lemma processing_needs_go_ahead_witness :
  uploaded_file confirm_spanish = Some "report.pdf"
  /\ true = translate_checkbox confirm_spanish
  /\ (confirm_button confirm_spanish = true
      \/ (confirmed initial_session = true
          /\ last_filename initial_session = Some "report.pdf")).
Proof.
  apply (processing_needs_go_ahead completes confirm_spanish initial_session
           (script_run completes confirm_spanish initial_session).2
           [LanguageSet "Spanish"; Processed "report.pdf" true "es"]
           "report.pdf" true "es").
  - vm_compute. reflexivity.
  - apply elem_of_cons. right. apply elem_of_cons. by left.
Defined.

(** X20 at the same run. *)
Lemma idle_session_stays_idle_witness :
  idle (script_run completes confirm_spanish initial_session).2
  /\ ((exists f e lang,
         Processed f e lang ∈ [LanguageSet "Spanish"; Processed "report.pdf" true "es"])
      <-> is_Some (uploaded_file confirm_spanish)
          /\ (if translate_checkbox confirm_spanish
              then confirm_button confirm_spanish = true
              else extract_button confirm_spanish = true)).
Proof.
  apply (idle_session_stays_idle completes confirm_spanish initial_session).
  - split; reflexivity.
  - vm_compute. reflexivity.
Defined.

(** X22 at the same run. *)
Lemma script_run_returns_witness :
  exists evs s', script_run completes confirm_spanish initial_session = (Py.Returned evs, s').
Proof.
  apply (script_run_returns completes confirm_spanish initial_session).
  - apply index_Some. vm_compute. by eexists.
  - intros f e l. by exists tt.
Defined.


(** X24 at the same list, with translation. *)
Lemma written_frames_keep_columns_witness :
  Forall (fun sheet : string * DataFrame =>
            exists i t,
              [merged_table; empty_table; unlabelled_table] !! i = Some t
              /\ sheet.1 = Py.slice_to 31 (sheet_name t i)
              /\ columns sheet.2
                 = map (fun col => Py.LStr (Py.strip (Py.str_label col))) (columns (df t))
              /\ (wf (df t) -> wf sheet.2))
         (match (process_tables (svc := english) true "en"
                   [merged_table; empty_table; unlabelled_table] (0, [])).1 with
          | Py.Returned loop_st => loop_st.1
          | Py.Raised _ => []
          end).
Proof.
  eapply (written_frames_keep_columns (svc := english) true "en"
            [merged_table; empty_table; unlabelled_table] (0, [])).
  vm_compute. reflexivity.
Defined.
